(** * Stream scheduler: event model, normalizers and scheduler state module

    A shallow embedding of
    [app/components-react/pages/stream-scheduler/StreamScheduler.tsx].

    - the unified [IStreamEvent] record and the two converters
      [convertYTBroadcastToEvent] and [convertFBLiveVideoToEvent];
    - [StreamSchedulerModule]: its state record, its mutations and its
      commands, written in a small state-and-exception monad;
    - the day-cell computation of the calendar ([dateCellRender]).

    Numbers that hold epoch milliseconds are integers ([Z]); the value
    [NaN] of an invalid date is outside the model.  Remote platform calls
    are oracles of an environment record: a command is run with each
    awaited promise already settled (or pending for ever). *)

From Stdlib Require Import ZArith String List Bool Lia.
From Stdlib Require Import Sorting.Sorted Sorting.Permutation.
Import ListNotations.
Local Open Scope Z_scope.

(** ** Values coming from the platforms *)

(** A native time stamp as the platform's JSON delivers it: missing, an
    ISO string, or a number. *)
Inductive JsTime : Type :=
| JsUndefined
| JsStr (s : string)
| JsNum (n : Z).

(** JavaScript truthiness, as the operator [||] tests it. *)
Definition truthy (v : JsTime) : bool :=
  match v with
  | JsUndefined => false
  | JsStr s => negb (String.eqb s EmptyString)
  | JsNum n => negb (n =? 0)
  end.

(** [a || b] *)
Definition js_or (a b : JsTime) : JsTime := if truthy a then a else b.

(** [TPlatform], the keys of the icon table of [PlatformLogo]. *)
Inductive TPlatform : Type := twitch | youtube | facebook | tiktok | trovo.

Definition platform_eqb (p q : TPlatform) : bool :=
  match p, q with
  | twitch, twitch | youtube, youtube | facebook, facebook
  | tiktok, tiktok | trovo, trovo => true
  | _, _ => false
  end.

Inductive TStatus : Type := scheduled | completed.

(** The [facebook] sub-record of an event. *)
Record FacebookInfo : Type := mkFacebookInfo {
  destinationType : string;
  destinationId : string
}.

(** [IStreamEvent] *)
Record IStreamEvent : Type := mkEvent {
  ev_platform : TPlatform;
  ev_id : string;
  ev_date : Z;
  ev_title : string;
  ev_status : TStatus;
  ev_facebook : option FacebookInfo
}.

(** [IYoutubeLiveBroadcast], the fields the scheduler reads. *)
Record YtStatus : Type := mkYtStatus { lifeCycleStatus : string }.

Record YtSnippet : Type := mkYtSnippet {
  snippet_title : string;
  snippet_scheduledStartTime : JsTime;
  snippet_actualStartTime : JsTime
}.

Record IYoutubeLiveBroadcast : Type := mkBroadcast {
  yt_id : string;
  yt_status : YtStatus;
  yt_snippet : YtSnippet
}.

(** [IFacebookLiveVideo] and [IFacebookLiveVideoExtended]. *)
Record IFacebookLiveVideo : Type := mkLiveVideo {
  fb_id : string;
  fb_title : string;
  planned_start_time : JsTime;
  broadcast_start_time : JsTime
}.

Record IFacebookLiveVideoExtended : Type := mkLiveVideoExt {
  fbx_video : IFacebookLiveVideo;
  fbx_destinationType : string;
  fbx_destinationId : string
}.

(** The object spread [{ ...video, ...fbOptions }]. *)
Definition spread_video (video : IFacebookLiveVideo) (fbOptions : FacebookInfo)
  : IFacebookLiveVideoExtended :=
  mkLiveVideoExt video (destinationType fbOptions) (destinationId fbOptions).

(** ** Event normalizer *)

Section Normalizer.

(** [new Date(v).valueOf()]: the parser of the JavaScript runtime. *)
Variable Date_valueOf : JsTime -> Z.

Definition convertYTBroadcastToEvent (ytBroadcast : IYoutubeLiveBroadcast)
  : IStreamEvent :=
  let status :=
    if String.eqb (lifeCycleStatus (yt_status ytBroadcast)) "created"%string
       || String.eqb (lifeCycleStatus (yt_status ytBroadcast)) "ready"%string
    then scheduled else completed in
  {| ev_platform := youtube;
     ev_id := yt_id ytBroadcast;
     ev_date :=
       Date_valueOf
         (js_or (snippet_scheduledStartTime (yt_snippet ytBroadcast))
                (snippet_actualStartTime (yt_snippet ytBroadcast)));
     ev_title := snippet_title (yt_snippet ytBroadcast);
     ev_status := status;
     ev_facebook := None |}.

Definition convertFBLiveVideoToEvent (fbLiveVideo : IFacebookLiveVideoExtended)
  : IStreamEvent :=
  {| ev_platform := facebook;
     ev_id := fb_id (fbx_video fbLiveVideo);
     ev_date :=
       Date_valueOf
         (js_or (planned_start_time (fbx_video fbLiveVideo))
                (broadcast_start_time (fbx_video fbLiveVideo)));
     ev_title := fb_title (fbx_video fbLiveVideo);
     ev_status := scheduled;
     ev_facebook :=
       Some {| destinationType := fbx_destinationType fbLiveVideo;
               destinationId := fbx_destinationId fbLiveVideo |} |}.

End Normalizer.

(** ** Array helpers of the JavaScript runtime *)

Section ArrayOps.

Context {A : Type}.

(** [arr.find(p)] *)
Definition array_find (p : A -> bool) (arr : list A) : option A := List.find p arr.

(** [arr.findIndex(p)]: the first index whose element satisfies [p],
    [-1] when there is none. *)
Fixpoint findIndex (p : A -> bool) (arr : list A) : Z :=
  match arr with
  | [] => -1
  | x :: rest =>
      if p x then 0
      else let i := findIndex p rest in
           if i <? 0 then -1 else i + 1
  end.

(** [arr.splice(start, deleteCount, item)]: a negative [start] counts
    from the end of the array, and both numbers are clamped to it. *)
Definition splice (start deleteCount : Z) (item : A) (arr : list A) : list A :=
  let len := Z.of_nat (length arr) in
  let actualStart :=
    if start <? 0 then Z.max (len + start) 0 else Z.min start len in
  let actualDeleteCount := Z.min (Z.max deleteCount 0) (len - actualStart) in
  firstn (Z.to_nat actualStart) arr
    ++ item :: skipn (Z.to_nat (actualStart + actualDeleteCount)) arr.

End ArrayOps.

(** ** Draft settings and the state of the module *)

(** [IYoutubeStartStreamOptions] and [IFacebookStartStreamOptions]: the
    fields the scheduler itself reads or writes. *)
Record IYoutubeStartStreamOptions : Type := mkYtOptions {
  broadcastId : string;
  yto_title : string;
  scheduledStartTime : option Z
}.

Record IFacebookStartStreamOptions : Type := mkFbOptions {
  liveVideoId : string;
  fbo_title : string;
  fbo_destinationType : string;
  plannedStartTime : option Z
}.

(** [ISchedulerPlatformSettings]: both keys are optional. *)
Record ISchedulerPlatformSettings : Type := mkPlatformSettings {
  ps_youtube : option IYoutubeStartStreamOptions;
  ps_facebook : option IFacebookStartStreamOptions
}.

(** A value of [platformSettings[platform]]. *)
Inductive StreamSettings : Type :=
| YoutubeSettings (o : IYoutubeStartStreamOptions)
| FacebookSettings (o : IFacebookStartStreamOptions).

Definition platformSettings_get (ps : ISchedulerPlatformSettings) (p : TPlatform)
  : option StreamSettings :=
  match p with
  | youtube => option_map YoutubeSettings (ps_youtube ps)
  | facebook => option_map FacebookSettings (ps_facebook ps)
  | _ => None
  end.

Record SchedulerState : Type := mkState {
  isLoading : bool;
  isEventsLoaded : bool;
  events : list IStreamEvent;
  isModalVisible : bool;
  selectedEventId : string;
  time : Z;
  selectedPlatform : TPlatform;
  platformSettings : ISchedulerPlatformSettings
}.

Definition set_isLoading (b : bool) (s : SchedulerState) : SchedulerState :=
  mkState b (isEventsLoaded s) (events s) (isModalVisible s) (selectedEventId s)
          (time s) (selectedPlatform s) (platformSettings s).

Definition set_isEventsLoaded (b : bool) (s : SchedulerState) : SchedulerState :=
  mkState (isLoading s) b (events s) (isModalVisible s) (selectedEventId s)
          (time s) (selectedPlatform s) (platformSettings s).

Definition set_events (evs : list IStreamEvent) (s : SchedulerState) : SchedulerState :=
  mkState (isLoading s) (isEventsLoaded s) evs (isModalVisible s) (selectedEventId s)
          (time s) (selectedPlatform s) (platformSettings s).

Definition set_isModalVisible (b : bool) (s : SchedulerState) : SchedulerState :=
  mkState (isLoading s) (isEventsLoaded s) (events s) b (selectedEventId s)
          (time s) (selectedPlatform s) (platformSettings s).

Definition set_selectedEventId (i : string) (s : SchedulerState) : SchedulerState :=
  mkState (isLoading s) (isEventsLoaded s) (events s) (isModalVisible s) i
          (time s) (selectedPlatform s) (platformSettings s).

Definition set_time (t : Z) (s : SchedulerState) : SchedulerState :=
  mkState (isLoading s) (isEventsLoaded s) (events s) (isModalVisible s)
          (selectedEventId s) t (selectedPlatform s) (platformSettings s).

Definition set_selectedPlatform (p : TPlatform) (s : SchedulerState) : SchedulerState :=
  mkState (isLoading s) (isEventsLoaded s) (events s) (isModalVisible s)
          (selectedEventId s) (time s) p (platformSettings s).

Definition set_platformSettings (ps : ISchedulerPlatformSettings) (s : SchedulerState)
  : SchedulerState :=
  mkState (isLoading s) (isEventsLoaded s) (events s) (isModalVisible s)
          (selectedEventId s) (time s) (selectedPlatform s) ps.

(** ** Promises, failures and the command monad *)

(** The rejection value of a platform call ([IStreamError]). *)
Definition IStreamError : Type := string.

Inductive Error : Type :=
| PlatformError (e : IStreamError)   (* a rejected platform or form promise *)
| AssertionError.                    (* getDefined / assertIsDefined *)

(** A promise as the command that holds it will find it. *)
Inductive Promise (A : Type) : Type :=
| Pending
| Resolved (a : A)
| Rejected (e : IStreamError).
Arguments Pending {A}.
Arguments Resolved {A} a.
Arguments Rejected {A} e.

(** How a command ends: it returns, it throws (an async function rejects),
    or it stays suspended at an [await] that never settles. *)
Inductive Result (A : Type) : Type :=
| Ok (a : A)
| Throw (e : Error)
| Awaiting.
Arguments Ok {A} a.
Arguments Throw {A} e.
Arguments Awaiting {A}.

(** What a command can touch: the module state, the toasts shown with
    [message.error], and the rejections nobody handles. *)
Record World : Type := mkWorld {
  state : SchedulerState;
  messages : list string;
  unhandled : list Error
}.

Definition M (A : Type) : Type := World -> Result A * World.

Definition ret {A} (a : A) : M A := fun w => (Ok a, w).

Definition bind {A B} (m : M A) (k : A -> M B) : M B :=
  fun w =>
    match m w with
    | (Ok a, w') => k a w'
    | (Throw e, w') => (Throw e, w')
    | (Awaiting, w') => (Awaiting, w')
    end.

Declare Scope cmd_scope.
Delimit Scope cmd_scope with cmd.
Notation "x <- m ;; k" := (bind m (fun x => k))
  (at level 61, m at next level, right associativity) : cmd_scope.
Notation "m ;; k" := (bind m (fun _ => k))
  (at level 61, right associativity) : cmd_scope.
Local Open Scope cmd_scope.

Definition throw {A} (e : Error) : M A := fun w => (Throw e, w).

Definition get_state : M SchedulerState := fun w => (Ok (state w), w).

(** A write to [this.state]. *)
Definition mutate (f : SchedulerState -> SchedulerState) : M unit :=
  fun w => (Ok tt, mkWorld (f (state w)) (messages w) (unhandled w)).

(** [message.error(text)] *)
Definition message_error (text : string) : M unit :=
  fun w => (Ok tt, mkWorld (state w) (messages w ++ [text]) (unhandled w)).

(** [await p] *)
Definition await {A} (p : Promise A) : M A :=
  fun w =>
    match p with
    | Resolved a => (Ok a, w)
    | Rejected e => (Throw (PlatformError e), w)
    | Pending => (Awaiting, w)
    end.

(** [try { body } catch (e) { handler(e) }] *)
Definition try_catch {A} (body : M A) (handler : Error -> M A) : M A :=
  fun w =>
    match body w with
    | (Throw e, w') => handler e w'
    | r => r
    end.

(** A call of an async method whose promise is dropped: the caller goes
    on, and a rejection has no handler. *)
Definition detach (m : M unit) : M unit :=
  fun w =>
    match m w with
    | (Throw e, w') => (Ok tt, mkWorld (state w') (messages w') (unhandled w' ++ [e]))
    | (_, w') => (Ok tt, w')
    end.

(** A platform call whose promise is dropped. *)
Definition detach_promise {A} (p : Promise A) : M unit :=
  detach (await p;; ret tt).

(** [Promise.all([a, b])]: both are started; it rejects as soon as one
    does and resolves when both have.  When both reject, the rejection
    that comes first in time wins; the order in time is not part of the
    model, which then answers the rejection of [a].  The properties below
    that speak of a rejected load assume that only one operand rejects. *)
Definition promise_all {A B} (a : M A) (b : M B) : M (A * B) :=
  fun w =>
    let (ra, w1) := a w in
    let (rb, w2) := b w1 in
    match ra, rb with
    | Ok x, Ok y => (Ok (x, y), w2)
    | Throw e, _ => (Throw e, w2)
    | _, Throw e => (Throw e, w2)
    | _, _ => (Awaiting, w2)
    end.

(** [getDefined(v)] and [assertIsDefined(v)] of
    [util/properties-type-guards]. *)
Definition getDefined {A} (v : option A) : M A :=
  match v with
  | Some a => ret a
  | None => throw AssertionError
  end.

(** ** Local calendar days *)

(** Local time is UTC shifted by [utcOffset] minutes: the days of a zone
    whose offset does not change.  On a day where the offset changes
    (daylight saving) the runtime's day has 23 or 25 hours and these
    bounds differ from it; [dateCellRender_in] below takes the bounds of
    the runtime as they come. *)
Definition MS_PER_MINUTE : Z := 60000.
Definition MS_PER_DAY : Z := 86400000.

(** [moment(t).startOf('day')], also [new Date(t).setHours(0, 0, 0, 0)]. *)
Definition startOfDay (utcOffset t : Z) : Z :=
  t - (t + utcOffset * MS_PER_MINUTE) mod MS_PER_DAY.

(** [moment(t).endOf('day')]: the last millisecond of the day. *)
Definition endOfDay (utcOffset t : Z) : Z :=
  startOfDay utcOffset t + MS_PER_DAY - 1.

(** [moment(t).isBetween(from, to)]: with no fourth argument both bounds
    are exclusive. *)
Definition isBetween (t from to : Z) : bool := (from <? t) && (t <? to).

(** ** The environment of the module *)

(** What [service.scheduleStream] resolves to. *)
Inductive ScheduledVideo : Type :=
| YtVideo (b : IYoutubeLiveBroadcast)
| FbVideo (v : IFacebookLiveVideo).

Definition video_id (video : ScheduledVideo) : string :=
  match video with
  | YtVideo b => yt_id b
  | FbVideo v => fb_id v
  end.

Definition promise_map {A B} (f : A -> B) (p : Promise A) : Promise B :=
  match p with
  | Pending => Pending
  | Resolved a => Resolved (f a)
  | Rejected e => Rejected e
  end.

(** The clock, the form and the services the module calls.  Each remote
    operation is given by the promise it returns. *)
Record Env : Type := mkEnv {
  now : Z;
  utcOffset : Z;
  linkedPlatforms : list TPlatform;
  supports_stream_schedule : TPlatform -> bool;
  yt_state_settings : IYoutubeStartStreamOptions;
  fb_state_settings : IFacebookStartStreamOptions;
  validateFields : Promise unit;
  yt_prepopulateInfo : Promise unit;
  fetchBroadcasts : Promise (list IYoutubeLiveBroadcast);
  fb_prepopulateInfo : Promise unit;
  fetchAllVideos : Promise (list IFacebookLiveVideoExtended);
  updateBroadcast : string -> StreamSettings -> Promise IYoutubeLiveBroadcast;
  updateLiveVideo : string -> StreamSettings -> Promise IFacebookLiveVideo;
  yt_scheduleStream : Z -> StreamSettings -> Promise IYoutubeLiveBroadcast;
  fb_scheduleStream : Z -> StreamSettings -> Promise IFacebookLiveVideo;
  getDestinationId : IFacebookStartStreamOptions -> string;
  removeBroadcast : string -> Promise unit;
  removeLiveVideo : string -> FacebookInfo -> Promise unit
}.

(** [getPlatformService(platform).scheduleStream]: only the YouTube and the
    Facebook service have the method. *)
Definition service_scheduleStream (env : Env) (platform : TPlatform)
  : option (Z -> StreamSettings -> Promise ScheduledVideo) :=
  match platform with
  | youtube => Some (fun t o => promise_map YtVideo (yt_scheduleStream env t o))
  | facebook => Some (fun t o => promise_map FbVideo (fb_scheduleStream env t o))
  | _ => None
  end.

(** ** StreamSchedulerModule *)

Section StreamSchedulerModule.

Variable Date_valueOf : JsTime -> Z.
Variable env : Env.

Let convertYT := convertYTBroadcastToEvent Date_valueOf.
Let convertFB := convertFBLiveVideoToEvent Date_valueOf.

Definition defaultPlatformSettings : ISchedulerPlatformSettings :=
  {| ps_youtube :=
       Some (mkYtOptions EmptyString (yto_title (yt_state_settings env))
                         (scheduledStartTime (yt_state_settings env)));
     ps_facebook :=
       Some (mkFbOptions EmptyString (fbo_title (fb_state_settings env))
                         (fbo_destinationType (fb_state_settings env))
                         (plannedStartTime (fb_state_settings env))) |}.

(** getter [selectedEvent] *)
Definition selectedEvent (s : SchedulerState) : option IStreamEvent :=
  array_find (fun ev => String.eqb (selectedEventId s) (ev_id ev)) (events s).

(** getter [platforms] *)
Definition platforms : list TPlatform :=
  filter (supports_stream_schedule env) (linkedPlatforms env).

(** getter [isUpdateMode]: [!!selectedEventId] *)
Definition isUpdateMode (s : SchedulerState) : bool :=
  negb (String.eqb (selectedEventId s) EmptyString).

(** getter [fbSettings] *)
Definition fbSettings : M IFacebookStartStreamOptions :=
  s <- get_state;; getDefined (ps_facebook (platformSettings s)).

(** *** Mutations *)

Definition closeModal : M unit :=
  mutate (set_selectedEventId EmptyString);;
  mutate (set_isModalVisible false);;
  mutate (set_platformSettings defaultPlatformSettings);;
  mutate (set_isLoading false).

(** The [@mutation()] decorator of the store is taken to run the body of
    the method on the state, one write after the other.  What the store
    keeps of the writes made before a [throw] is its own business:
    [setTime] is the one mutation that can throw after a write. *)
Definition setTime (t : Z) : M unit :=
  mutate (set_time t);;
  s <- get_state;;
  if platform_eqb (selectedPlatform s) facebook then
    fb <- getDefined (ps_facebook (platformSettings s));;
    mutate (set_platformSettings
              (mkPlatformSettings
                 (ps_youtube (platformSettings s))
                 (Some (mkFbOptions (liveVideoId fb) (fbo_title fb)
                                    (fbo_destinationType fb) (Some t)))))
  else
    yt <- getDefined (ps_youtube (platformSettings s));;
    mutate (set_platformSettings
              (mkPlatformSettings
                 (Some (mkYtOptions (broadcastId yt) (yto_title yt) (Some t)))
                 (ps_facebook (platformSettings s)))).

Definition reset : M unit :=
  mutate (set_events []);;
  mutate (set_platformSettings defaultPlatformSettings).

Definition setEvents (evs : list IStreamEvent) : M unit :=
  mutate (set_isEventsLoaded true);;
  mutate (set_events evs).

Definition addEvent (event : IStreamEvent) : M unit :=
  mutate (fun s => set_events (events s ++ [event]) s).

Definition setEvent (id : string) (event : IStreamEvent) : M unit :=
  mutate (fun s =>
    let ind := findIndex (fun ev => String.eqb (ev_id ev) id) (events s) in
    set_events (splice ind 1 event (events s)) s).

Definition REMOVE_EVENT (id : string) : M unit :=
  mutate (fun s =>
    set_events (filter (fun ev => negb (String.eqb (ev_id ev) id)) (events s)) s).

Definition showLoader : M unit := mutate (set_isLoading true).

Definition hideLoader : M unit := mutate (set_isLoading false).

(** [selectedTime?.valueOf() || this.state.time]: a missing argument and
    the number zero both fall through to the stored time. *)
Definition valueOf_or (selectedTime : option Z) (stored : Z) : Z :=
  match selectedTime with
  | Some v => if v =? 0 then stored else v
  | None => stored
  end.

(** [selectedTime] is the epoch-millisecond value of the Moment passed. *)
Definition showNewEventModal (platform : TPlatform) (selectedTime : option Z)
  : M unit :=
  let today := startOfDay (utcOffset env) (now env) in
  s <- get_state;;
  let t := valueOf_or selectedTime (time s) in
  let isPastDate := t <? today in
  if isPastDate then
    message_error "You can not schedule to a past date"
  else
    mutate (set_selectedPlatform platform);;
    mutate (set_isModalVisible true);;
    setTime t.

(** *** Loading *)

Definition loadYTBEvents : M (list IYoutubeLiveBroadcast) :=
  if existsb (platform_eqb youtube) platforms then
    await (yt_prepopulateInfo env);;
    await (fetchBroadcasts env)
  else ret [].

Definition loadFbEvents : M (list IFacebookLiveVideoExtended) :=
  if existsb (platform_eqb facebook) platforms then
    await (fb_prepopulateInfo env);;
    await (fetchAllVideos env)
  else ret [].

(** [xs.forEach(x => events.push(convert(x)))] *)
Definition forEach_push {X} (convert : X -> IStreamEvent) (xs : list X)
           (evs : list IStreamEvent) : list IStreamEvent :=
  fold_left (fun acc x => acc ++ [convert x]) xs evs.

Definition loadEvents : M unit :=
  reset;;
  r <- promise_all loadFbEvents loadYTBEvents;;
  let fbEvents := fst r in
  let ytEvents := snd r in
  let evs := forEach_push convertYT ytEvents [] in
  let evs := forEach_push convertFB fbEvents evs in
  setEvents evs.

Definition init : M unit := detach loadEvents.

(** *** Saving *)

Definition handleError (err : Error) : M unit :=
  s <- get_state;;
  (if platform_eqb (selectedPlatform s) facebook then
     message_error
       "Please schedule no further than 7 days in advance and no sooner than 10 minutes in advance."
   else
     message_error "Can not schedule the stream for the given date/time");;
  hideLoader.

(** In the two save commands a [catch] block that ends in [return] yields
    [None], and the statements after the [try] run on [Some video]. *)
Definition saveExistingStream : M unit :=
  s <- get_state;;
  let selectedPlatform := selectedPlatform s in
  let selectedEventId := selectedEventId s in
  streamSettings <- getDefined (platformSettings_get (platformSettings s) selectedPlatform);;
  if platform_eqb selectedPlatform youtube then
    video <- await (updateBroadcast env selectedEventId streamSettings);;
    setEvent (yt_id video) (convertYT video);;
    closeModal
  else
    event <- getDefined (selectedEvent s);;
    fbOptions <- getDefined (ev_facebook event);;
    r <- try_catch
           (video <- await (updateLiveVideo env selectedEventId streamSettings);;
            ret (Some video))
           (fun e => handleError e;; ret None);;
    match r with
    | None => ret tt
    | Some video =>
        setEvent (fb_id video) (convertFB (spread_video video fbOptions));;
        closeModal
    end.

Definition saveNewStream : M unit :=
  s <- get_state;;
  let selectedPlatform := selectedPlatform s in
  let time := time s in
  streamSettings <- getDefined (platformSettings_get (platformSettings s) selectedPlatform);;
  scheduleStream <- getDefined (service_scheduleStream env selectedPlatform);;
  r <- try_catch
         (video <- await (scheduleStream time streamSettings);;
          ret (Some video))
         (fun e => handleError e;; ret None);;
  match r with
  | None => ret tt
  | Some video =>
      event <-
        match video with
        | YtVideo b => ret (convertYT b)
        | FbVideo v =>
            fbs <- fbSettings;;
            let destinationId := getDestinationId env fbs in
            ret (convertFB (mkLiveVideoExt v (fbo_destinationType fbs) destinationId))
        end;;
      setEvent (video_id video) event;;
      closeModal
  end.

Definition submit : M unit :=
  valid <- try_catch
             (await (validateFields env);; ret true)
             (fun _ => message_error "Invalid settings. Please check the form";;
                       ret false);;
  if valid then
    showLoader;;
    s <- get_state;;
    if isUpdateMode s then detach saveExistingStream else detach saveNewStream
  else ret tt.

(** *** Removing *)

Definition remove : M unit :=
  s <- get_state;;
  let selectedPlatform := selectedPlatform s in
  let selectedEventId := selectedEventId s in
  showLoader;;
  (if platform_eqb selectedPlatform youtube then
     detach_promise (removeBroadcast env selectedEventId)
   else
     event <- getDefined (selectedEvent s);;
     fbOptions <- getDefined (ev_facebook event);;
     detach_promise (removeLiveVideo env selectedEventId fbOptions));;
  REMOVE_EVENT selectedEventId;;
  closeModal.

End StreamSchedulerModule.

(** ** The calendar *)

(** [arr.sort((ev1, ev2) => ev1.date - ev2.date)]: the sort of the runtime
    is stable; this is the stable insertion sort. *)
Fixpoint insert_by_date (ev : IStreamEvent) (sorted : list IStreamEvent)
  : list IStreamEvent :=
  match sorted with
  | [] => [ev]
  | x :: rest =>
      if ev_date ev - ev_date x <=? 0 then ev :: sorted
      else x :: insert_by_date ev rest
  end.

Fixpoint sort_by_date (evs : list IStreamEvent) : list IStreamEvent :=
  match evs with
  | [] => []
  | ev :: rest => insert_by_date ev (sort_by_date rest)
  end.

(** The events [dateCellRender(date)] renders, in rendering order. *)
Definition dateCellRender (utcOffset : Z) (events : list IStreamEvent) (date : Z)
  : list IStreamEvent :=
  let start := startOfDay utcOffset date in
  let end_ := endOfDay utcOffset date in
  let dayEvents :=
    sort_by_date (filter (fun ev => isBetween (ev_date ev) start end_) events) in
  dayEvents.

(** The two toasts of [handleError]. *)
Definition facebook_window_message : string :=
  "Please schedule no further than 7 days in advance and no sooner than 10 minutes in advance.".

Definition cannot_schedule_message : string :=
  "Can not schedule the stream for the given date/time".

(** [dateCellRender] with the day bounds of the runtime as parameters:
    [startOf date] is [moment(date).startOf('day')] and [endOf date] is
    [moment(date).endOf('day')] in the zone of the machine, whatever its
    rules. *)
Definition dateCellRender_in (startOf endOf : Z -> Z)
           (events : list IStreamEvent) (date : Z) : list IStreamEvent :=
  let start := startOf date in
  let end_ := endOf date in
  let dayEvents :=
    sort_by_date (filter (fun ev => isBetween (ev_date ev) start end_) events) in
  dayEvents.

(** What makes [startOf] and [endOf] the bounds of calendar days: every
    instant from the start to the end of the day of [date] has that same
    start and that same end.  Days of 23 or 25 hours are days too. *)
Definition local_days (startOf endOf : Z -> Z) : Prop :=
  forall t date,
    startOf date <= t <= endOf date ->
    startOf t = startOf date /\ endOf t = endOf date.

(** An instant falls on the local calendar day of [date] when both have
    the same start of day. *)
Definition onSameDay (utcOffset t date : Z) : bool :=
  startOfDay utcOffset t =? startOfDay utcOffset date.

(** Ascending by time. *)
Definition by_date (a b : IStreamEvent) : Prop := ev_date a <= ev_date b.

(** The test [ev => ev.id === id]. *)
Definition has_id (id : string) (ev : IStreamEvent) : bool := String.eqb (ev_id ev) id.

(** The test [ev => ev.id !== id]. *)
Definition other_id (id : string) (ev : IStreamEvent) : bool := negb (has_id id ev).

(** ** Opening the modal on an existing event *)

(** The two calls that fetch the settings of one resource. *)
Record EditServices : Type := mkEditServices {
  fetchStartStreamOptionsForBroadcast : string -> Promise IYoutubeStartStreamOptions;
  fetchStartStreamOptionsForVideo :
    string -> string -> string -> Promise IFacebookStartStreamOptions
}.

(** [platformSettings[platform] = settings].  The record holds the keys
    [youtube] and [facebook]; a write under another key leaves these two
    as they are and is not represented. *)
Definition platformSettings_set (ps : ISchedulerPlatformSettings) (p : TPlatform)
           (settings : StreamSettings) : ISchedulerPlatformSettings :=
  match p, settings with
  | youtube, YoutubeSettings o => mkPlatformSettings (Some o) (ps_facebook ps)
  | facebook, FacebookSettings o => mkPlatformSettings (ps_youtube ps) (Some o)
  | _, _ => ps
  end.

Definition SHOW_EDIT_EVENT_MODAL (event : IStreamEvent) (settings : StreamSettings)
  : M unit :=
  mutate (set_selectedEventId (ev_id event));;
  mutate (set_selectedPlatform (ev_platform event));;
  mutate (fun s =>
    set_platformSettings
      (platformSettings_set (platformSettings s) (ev_platform event) settings) s);;
  mutate (set_isModalVisible true);;
  mutate (set_time (ev_date event)).

Definition showEditEventModal (svc : EditServices) (eventId : string) : M unit :=
  s <- get_state;;
  event <- getDefined (array_find (fun ev => String.eqb eventId (ev_id ev)) (events s));;
  if platform_eqb (ev_platform event) youtube then
    ytSettings <- await (fetchStartStreamOptionsForBroadcast svc (ev_id event));;
    SHOW_EDIT_EVENT_MODAL event (YoutubeSettings ytSettings)
  else
    fbDestination <- getDefined (ev_facebook event);;
    fbSettings <- await (fetchStartStreamOptionsForVideo svc (ev_id event)
                           (destinationType fbDestination)
                           (destinationId fbDestination));;
    SHOW_EDIT_EVENT_MODAL event (FacebookSettings fbSettings).

(** The state [SHOW_EDIT_EVENT_MODAL] leaves. *)
Definition edited (s : SchedulerState) (event : IStreamEvent) (settings : StreamSettings)
  : SchedulerState :=
  mkState (isLoading s) (isEventsLoaded s) (events s) true (ev_id event)
          (ev_date event) (ev_platform event)
          (platformSettings_set (platformSettings s) (ev_platform event) settings).

(** ** The footer of the modal: [EventButtons] and [EventSettingsModal] *)

Definition status_eqb (a b : TStatus) : bool :=
  match a, b with
  | scheduled, scheduled | completed, completed => true
  | _, _ => false
  end.

(** [!!selectedEvent] *)
Definition shouldShowSave (s : SchedulerState) : bool :=
  match selectedEvent s with
  | Some _ => true
  | None => false
  end.

(** [selectedEvent && selectedEvent.status === 'scheduled'] *)
Definition shouldShowRemove (s : SchedulerState) : bool :=
  match selectedEvent s with
  | Some ev => status_eqb (ev_status ev) scheduled
  | None => false
  end.

(** [!selectedEvent] *)
Definition shouldShowSchedule (s : SchedulerState) : bool :=
  match selectedEvent s with
  | Some _ => false
  | None => true
  end.

(** [canChangePlatform = !isUpdateMode] *)
Definition canChangePlatform (s : SchedulerState) : bool := negb (isUpdateMode s).

(** ** What the list of events is made of *)

(** An event as the two normalizers make it: a YouTube event, or a
    Facebook event that carries its destination. *)
Definition event_ok (ev : IStreamEvent) : Prop :=
  ev_platform ev = youtube
  \/ (ev_platform ev = facebook /\ ev_facebook ev <> None).

Definition events_ok (w : World) : Prop := Forall event_ok (events (state w)).

(** A command keeps a property of the world, however it ends. *)
Definition preserves (P : World -> Prop) {A} (m : M A) : Prop :=
  forall w, P w -> P (snd (m w)).

(** ** The button that adds a destination *)

Module AddDestination.

Inductive ButtonType : Type := default_type | ultra_type.

(** The calls the click handler makes on the services. *)
Inductive ServiceCall : Type :=
| showSettings (page : string)
| subscribeUltraAnalytics
| linkToPrime (refl : string).

(** What the handlers read: the go-live module and the restream state. *)
Record GoLive : Type := mkGoLive {
  isPrime : bool;
  isDualOutputMode : bool;
  linkedPlatforms : list TPlatform;
  customDestinations : list string;
  grandfathered : bool
}.

Definition addDestination (module : GoLive) : list ServiceCall :=
  if isPrime module then [showSettings "Stream"]
  else if isDualOutputMode module then
    [subscribeUltraAnalytics; linkToPrime "slobs-multistream"]
  else [linkToPrime "slobs-multistream"].

Definition canAddDestinations (module : GoLive) : bool :=
  (length (linkedPlatforms module) + length (customDestinations module) <? 8)%nat.

Definition btnType (module : GoLive) : ButtonType :=
  if negb (grandfathered module) && negb (isPrime module) then ultra_type
  else default_type.

(** [p?.type ?? btnType] *)
Definition shownType (type : option ButtonType) (module : GoLive) : ButtonType :=
  match type with
  | Some t => t
  | None => btnType module
  end.

End AddDestination.

(** The start time that the draft of [platform] holds: the planned start
    time of the Facebook draft for Facebook, the scheduled start time of
    the YouTube draft for every other platform. *)
Definition draft_time (ps : ISchedulerPlatformSettings) (platform : TPlatform)
  : option Z :=
  if platform_eqb platform facebook then
    match ps_facebook ps with
    | Some fb => plannedStartTime fb
    | None => None
    end
  else
    match ps_youtube ps with
    | Some yt => scheduledStartTime yt
    | None => None
    end.

(** ** Sample data *)

Module Sample.

(** A stand-in for the date parser: a number is its own epoch value. *)
Definition Date_valueOf (v : JsTime) : Z :=
  match v with
  | JsNum n => n
  | _ => 0
  end.

(** 2024-01-01T00:00:00Z and 2024-01-01T10:00:00Z. *)
Definition midnight : Z := 1704067200000.
Definition ten_am : Z := 1704103200000.

Definition broadcast (id : string) (status : string) (t : Z) : IYoutubeLiveBroadcast :=
  mkBroadcast id (mkYtStatus status) (mkYtSnippet "Stream" (JsNum t) JsUndefined).

Definition video (id : string) (t : Z) : IFacebookLiveVideo :=
  mkLiveVideo id "Live" (JsNum t) JsUndefined.

Definition videoExt (id : string) (t : Z) : IFacebookLiveVideoExtended :=
  mkLiveVideoExt (video id t) "page" "p1".

Definition ytEvent (id : string) (t : Z) : IStreamEvent :=
  mkEvent youtube id t "Stream" scheduled None.

Definition fbEvent (id : string) (t : Z) : IStreamEvent :=
  mkEvent facebook id t "Live" scheduled (Some (mkFacebookInfo "page" "p1")).

Definition ytOptions : IYoutubeStartStreamOptions := mkYtOptions "b0" "Stream" None.
Definition fbOptions : IFacebookStartStreamOptions := mkFbOptions "v0" "Live" "page" None.

(** Both platforms linked; every remote call resolves; a scheduled or
    updated resource gets the id [new] on creation and keeps its id on
    update.  The delete calls never settle. *)
Definition env_ok : Env :=
  {| now := ten_am;
     utcOffset := 0;
     linkedPlatforms := [youtube; facebook];
     supports_stream_schedule := fun _ => true;
     yt_state_settings := ytOptions;
     fb_state_settings := fbOptions;
     validateFields := Resolved tt;
     yt_prepopulateInfo := Resolved tt;
     fetchBroadcasts :=
       Resolved [broadcast "y1" "ready" ten_am; broadcast "y2" "complete" midnight];
     fb_prepopulateInfo := Resolved tt;
     fetchAllVideos :=
       Resolved [videoExt "f1" ten_am; videoExt "f2" ten_am; videoExt "f3" midnight];
     updateBroadcast := fun id _ => Resolved (broadcast id "ready" ten_am);
     updateLiveVideo := fun id _ => Resolved (video id ten_am);
     yt_scheduleStream := fun t _ => Resolved (broadcast "new" "created" t);
     fb_scheduleStream := fun t _ => Resolved (video "new" t);
     getDestinationId := fun _ => "p1"%string;
     removeBroadcast := fun _ => Pending;
     removeLiveVideo := fun _ _ => Pending |}.

(** The same services with every update, create and delete call rejected. *)
Definition env_rejecting : Env :=
  {| now := ten_am;
     utcOffset := 0;
     linkedPlatforms := [youtube; facebook];
     supports_stream_schedule := fun _ => true;
     yt_state_settings := ytOptions;
     fb_state_settings := fbOptions;
     validateFields := Resolved tt;
     yt_prepopulateInfo := Resolved tt;
     fetchBroadcasts := Resolved [];
     fb_prepopulateInfo := Resolved tt;
     fetchAllVideos := Resolved [];
     updateBroadcast := fun _ _ => Rejected "rejected"%string;
     updateLiveVideo := fun _ _ => Rejected "rejected"%string;
     yt_scheduleStream := fun _ _ => Rejected "rejected"%string;
     fb_scheduleStream := fun _ _ => Rejected "rejected"%string;
     getDestinationId := fun _ => "p1"%string;
     removeBroadcast := fun _ => Rejected "rejected"%string;
     removeLiveVideo := fun _ _ => Rejected "rejected"%string |}.

(** The modal is open on [platform] for the event [selected] (the empty
    string while a new event is drafted). *)
Definition opened (evs : list IStreamEvent) (selected : string) (platform : TPlatform)
  : SchedulerState :=
  {| isLoading := false;
     isEventsLoaded := true;
     events := evs;
     isModalVisible := true;
     selectedEventId := selected;
     time := ten_am;
     selectedPlatform := platform;
     platformSettings := defaultPlatformSettings env_ok |}.

(** The calendar page with the modal closed. *)
Definition closed (evs : list IStreamEvent) (platform : TPlatform) (t : Z)
  : SchedulerState :=
  {| isLoading := false;
     isEventsLoaded := true;
     events := evs;
     isModalVisible := false;
     selectedEventId := EmptyString;
     time := t;
     selectedPlatform := platform;
     platformSettings := defaultPlatformSettings env_ok |}.

Definition world (s : SchedulerState) : World := mkWorld s [] [].

End Sample.

Module SampleEdit.

(** Both fetches resolve to the settings of the resource asked for. *)
Definition services : EditServices :=
  {| fetchStartStreamOptionsForBroadcast :=
       fun id => Resolved (mkYtOptions id "Stream" (Some Sample.ten_am));
     fetchStartStreamOptionsForVideo :=
       fun id destType _ => Resolved (mkFbOptions id "Live" destType (Some Sample.ten_am)) |}.

(** Only Facebook is linked, and the YouTube service is down. *)
Definition env_facebook_only : Env :=
  {| now := Sample.ten_am;
     utcOffset := 0;
     linkedPlatforms := [twitch; facebook];
     supports_stream_schedule := fun p => platform_eqb p facebook;
     yt_state_settings := Sample.ytOptions;
     fb_state_settings := Sample.fbOptions;
     validateFields := Rejected "invalid"%string;
     yt_prepopulateInfo := Rejected "down"%string;
     fetchBroadcasts := Rejected "down"%string;
     fb_prepopulateInfo := Resolved tt;
     fetchAllVideos := Resolved [Sample.videoExt "f1" Sample.ten_am];
     updateBroadcast := fun _ _ => Pending;
     updateLiveVideo := fun id _ => Resolved (Sample.video id Sample.midnight);
     yt_scheduleStream := fun _ _ => Pending;
     fb_scheduleStream := fun t _ => Resolved (Sample.video "new" t);
     getDestinationId := fun _ => "p1"%string;
     removeBroadcast := fun _ => Pending;
     removeLiveVideo := fun _ _ => Pending |}.

End SampleEdit.

(** * Properties *)

Lemma platform_eqb_eq p q : platform_eqb p q = true <-> p = q.
Proof. destruct p, q; simpl; split; congruence. Qed.

(** ** Arrays *)

Lemma forEach_push_map {X} (convert : X -> IStreamEvent) (xs : list X) :
  forall evs, forEach_push convert xs evs = evs ++ map convert xs.
Proof.
  unfold forEach_push.
  induction xs as [|x xs IH]; intros evs; simpl.
  - now rewrite app_nil_r.
  - rewrite IH, <- app_assoc. reflexivity.
Qed.

Lemma findIndex_lower {A} (p : A -> bool) (arr : list A) : -1 <= findIndex p arr.
Proof.
  induction arr as [|x rest IH]; simpl; [lia|].
  destruct (p x); [lia|].
  destruct (findIndex p rest <? 0) eqn:E; lia.
Qed.

(** [findIndex] answers [-1] exactly when no element passes the test. *)
Lemma findIndex_none {A} (p : A -> bool) (arr : list A) :
  findIndex p arr = -1 <-> (forall x, In x arr -> p x = false).
Proof.
  induction arr as [|a rest IH]; simpl.
  - split; [intros _ x []|reflexivity].
  - destruct (p a) eqn:Pa.
    + split; [discriminate|]. intros H. specialize (H a (or_introl eq_refl)). congruence.
    + pose proof (findIndex_lower p rest) as L.
      destruct (findIndex p rest <? 0) eqn:E.
      * apply Z.ltb_lt in E. assert (Hm : findIndex p rest = -1) by lia.
        split; [|reflexivity]. intros _ x [<-|Hx]; [assumption|].
        now apply (proj1 IH Hm).
      * apply Z.ltb_ge in E. split; [lia|]. intros H.
        assert (Hm : findIndex p rest = -1) by (apply IH; intros; apply H; now right).
        lia.
Qed.

(** Otherwise it is the position of the first element that passes. *)
Lemma findIndex_first {A} (p : A -> bool) (arr : list A) :
  0 <= findIndex p arr ->
  exists before x after,
    arr = before ++ x :: after
    /\ findIndex p arr = Z.of_nat (length before)
    /\ p x = true
    /\ (forall y, In y before -> p y = false).
Proof.
  induction arr as [|a rest IH]; simpl; [lia|].
  destruct (p a) eqn:Pa.
  - intros _. exists [], a, rest. simpl. repeat split; auto. intros y [].
  - destruct (findIndex p rest <? 0) eqn:E; [lia|].
    apply Z.ltb_ge in E. intros _.
    destruct (IH E) as (before & x & after & -> & Hi & Px & Hb).
    exists (a :: before), x, after. simpl. repeat split; auto.
    + rewrite Hi. lia.
    + intros y [<-|Hy]; auto.
Qed.

(** Replacing one element at a position inside the array. *)
Lemma splice_inside {A} (before after : list A) (x item : A) :
  splice (Z.of_nat (length before)) 1 item (before ++ x :: after)
  = before ++ item :: after.
Proof.
  unfold splice.
  rewrite length_app. simpl length.
  set (n := length before). set (m := length after).
  assert (H0 : (Z.of_nat n <? 0) = false) by (apply Z.ltb_ge; lia).
  rewrite H0.
  replace (Z.min (Z.of_nat n) (Z.of_nat (n + S m))) with (Z.of_nat n) by lia.
  replace (Z.min (Z.max 1 0) (Z.of_nat (n + S m) - Z.of_nat n)) with 1 by lia.
  rewrite Nat2Z.id.
  replace (Z.to_nat (Z.of_nat n + 1)) with (n + 1)%nat by lia.
  subst n. rewrite firstn_app, firstn_all, Nat.sub_diag. simpl firstn.
  rewrite app_nil_r. f_equal. f_equal.
  rewrite skipn_app.
  replace (length before + 1 - length before)%nat with 1%nat by lia.
  rewrite skipn_all2 by lia. reflexivity.
Qed.

(** With [start = -1] the last element is the one replaced; an empty
    array receives the item. *)
Lemma splice_minus_one_nil {A} (item : A) : splice (-1) 1 item [] = [item].
Proof. reflexivity. Qed.

Lemma splice_minus_one_last {A} (init : list A) (x item : A) :
  splice (-1) 1 item (init ++ [x]) = init ++ [item].
Proof.
  replace (-1) with (Z.of_nat (length init) - Z.of_nat (length (init ++ [x])))
    by (rewrite length_app; simpl; lia).
  unfold splice.
  rewrite length_app. simpl length.
  set (n := length init).
  assert (H0 : (Z.of_nat n - Z.of_nat (n + 1) <? 0) = true) by (apply Z.ltb_lt; lia).
  rewrite H0.
  replace (Z.max (Z.of_nat (n + 1) + (Z.of_nat n - Z.of_nat (n + 1))) 0)
    with (Z.of_nat n) by lia.
  replace (Z.min (Z.max 1 0) (Z.of_nat (n + 1) - Z.of_nat n)) with 1 by lia.
  rewrite Nat2Z.id.
  replace (Z.to_nat (Z.of_nat n + 1)) with (n + 1)%nat by lia.
  subst n. rewrite firstn_app, firstn_all, Nat.sub_diag. simpl firstn.
  rewrite app_nil_r. f_equal.
  rewrite skipn_all2 by (rewrite length_app; simpl; lia). reflexivity.
Qed.

(** ** The normalizers *)

Lemma string_eqb_created_or_ready (l : string) :
  (String.eqb l "created" || String.eqb l "ready")%bool = true
  <-> l = "created"%string \/ l = "ready"%string.
Proof.
  rewrite orb_true_iff, !String.eqb_eq. reflexivity.
Qed.

(** The argument of [new Date] in both normalizers, case by case: the
    first time stamp when it is a non-empty string or a number other
    than zero; the second one when the first is missing, the empty
    string or zero. *)
Lemma Date_valueOf_js_or (Date_valueOf : JsTime -> Z) (first second : JsTime) :
  Date_valueOf (js_or first second)
  = match first with
    | JsUndefined => Date_valueOf second
    | JsStr EmptyString => Date_valueOf second
    | JsStr (String c s) => Date_valueOf (JsStr (String c s))
    | JsNum 0 => Date_valueOf second
    | JsNum n => Date_valueOf (JsNum n)
    end.
Proof.
  unfold js_or. destruct first as [|[|c s]|[|n|n]]; reflexivity.
Qed.

(** C6. The YouTube normalizer tags the event [youtube], copies id and
    title, yields [scheduled] exactly for the lifecycle statuses
    [created] and [ready] and [completed] for every other one.  The
    date is the epoch value of the scheduled start time when that field
    is present (a non-empty string, or a number other than zero), and
    the epoch value of the actual start time when it is absent
    (missing, the empty string, or zero). *)
Theorem convertYTBroadcastToEvent_spec
        (Date_valueOf : JsTime -> Z) (b : IYoutubeLiveBroadcast) :
  ev_platform (convertYTBroadcastToEvent Date_valueOf b) = youtube
  /\ ev_id (convertYTBroadcastToEvent Date_valueOf b) = yt_id b
  /\ ev_title (convertYTBroadcastToEvent Date_valueOf b) = snippet_title (yt_snippet b)
  /\ (ev_status (convertYTBroadcastToEvent Date_valueOf b) = scheduled
      <-> lifeCycleStatus (yt_status b) = "created"%string
          \/ lifeCycleStatus (yt_status b) = "ready"%string)
  /\ (ev_status (convertYTBroadcastToEvent Date_valueOf b) = completed
      <-> ~ (lifeCycleStatus (yt_status b) = "created"%string
             \/ lifeCycleStatus (yt_status b) = "ready"%string))
  /\ ev_date (convertYTBroadcastToEvent Date_valueOf b)
     = match snippet_scheduledStartTime (yt_snippet b) with
       | JsUndefined => Date_valueOf (snippet_actualStartTime (yt_snippet b))
       | JsStr EmptyString => Date_valueOf (snippet_actualStartTime (yt_snippet b))
       | JsStr (String c s) => Date_valueOf (JsStr (String c s))
       | JsNum 0 => Date_valueOf (snippet_actualStartTime (yt_snippet b))
       | JsNum n => Date_valueOf (JsNum n)
       end
  /\ ev_facebook (convertYTBroadcastToEvent Date_valueOf b) = None.
Proof.
  unfold convertYTBroadcastToEvent; simpl.
  pose proof (string_eqb_created_or_ready (lifeCycleStatus (yt_status b))) as E.
  destruct (String.eqb (lifeCycleStatus (yt_status b)) "created"
            || String.eqb (lifeCycleStatus (yt_status b)) "ready")%bool.
  - repeat split; auto; try (intros _; now apply E); try discriminate.
    + intros H; exfalso; apply H; now apply E.
    + apply Date_valueOf_js_or.
  - assert (N : ~ (lifeCycleStatus (yt_status b) = "created"%string
                   \/ lifeCycleStatus (yt_status b) = "ready"%string))
      by (intros H; apply E in H; discriminate).
    repeat split; auto; try discriminate.
    + intros H; exfalso; now apply N.
    + apply Date_valueOf_js_or.
Qed.

(** The scenario of the specification: a [ready] broadcast with a
    scheduled start time. *)
Example convertYT_launch (Date_valueOf : JsTime -> Z) :
  convertYTBroadcastToEvent Date_valueOf
    (mkBroadcast "yt1" (mkYtStatus "ready")
       (mkYtSnippet "Launch" (JsStr "2024-01-01T10:00:00Z") JsUndefined))
  = mkEvent youtube "yt1" (Date_valueOf (JsStr "2024-01-01T10:00:00Z"))
            "Launch" scheduled None.
Proof. reflexivity. Qed.

(** A broadcast that has no scheduled start time takes its date from the
    actual start time. *)
Example convertYT_actual_start (Date_valueOf : JsTime -> Z) :
  convertYTBroadcastToEvent Date_valueOf
    (mkBroadcast "yt2" (mkYtStatus "complete")
       (mkYtSnippet "Done" JsUndefined (JsStr "2023-12-31T18:00:00Z")))
  = mkEvent youtube "yt2" (Date_valueOf (JsStr "2023-12-31T18:00:00Z"))
            "Done" completed None.
Proof. reflexivity. Qed.

(** C7. The Facebook normalizer tags the event [facebook] and always
    yields [scheduled].  The date is the epoch value of the planned
    start time when that field is present (a non-empty string, or a
    number other than zero), and the epoch value of the broadcast start
    time when it is absent (missing, the empty string, or zero).  The
    [facebook] sub-record is always filled with the destination type and
    id of the resource. *)
Theorem convertFBLiveVideoToEvent_spec
        (Date_valueOf : JsTime -> Z) (v : IFacebookLiveVideoExtended) :
  ev_platform (convertFBLiveVideoToEvent Date_valueOf v) = facebook
  /\ ev_id (convertFBLiveVideoToEvent Date_valueOf v) = fb_id (fbx_video v)
  /\ ev_title (convertFBLiveVideoToEvent Date_valueOf v) = fb_title (fbx_video v)
  /\ ev_status (convertFBLiveVideoToEvent Date_valueOf v) = scheduled
  /\ ev_date (convertFBLiveVideoToEvent Date_valueOf v)
     = match planned_start_time (fbx_video v) with
       | JsUndefined => Date_valueOf (broadcast_start_time (fbx_video v))
       | JsStr EmptyString => Date_valueOf (broadcast_start_time (fbx_video v))
       | JsStr (String c s) => Date_valueOf (JsStr (String c s))
       | JsNum 0 => Date_valueOf (broadcast_start_time (fbx_video v))
       | JsNum n => Date_valueOf (JsNum n)
       end
  /\ ev_facebook (convertFBLiveVideoToEvent Date_valueOf v)
     = Some (mkFacebookInfo (fbx_destinationType v) (fbx_destinationId v)).
Proof.
  unfold convertFBLiveVideoToEvent; simpl.
  repeat split. apply Date_valueOf_js_or.
Qed.

(** ** Loading *)



(** A successful load, step by step: the list is emptied and the drafts
    reset, then the converted resources are committed in one write. *)
Lemma loadEvents_run
      (Date_valueOf : JsTime -> Z) (env : Env) (w : World)
      (yt : list IYoutubeLiveBroadcast) (fb : list IFacebookLiveVideoExtended) :
  (forall w', loadYTBEvents env w' = (Ok yt, w')) ->
  (forall w', loadFbEvents env w' = (Ok fb, w')) ->
  loadEvents Date_valueOf env w
  = (Ok tt,
     mkWorld
       (set_events
          (map (convertYTBroadcastToEvent Date_valueOf) yt
           ++ map (convertFBLiveVideoToEvent Date_valueOf) fb)
          (set_isEventsLoaded true
             (set_platformSettings (defaultPlatformSettings env)
                (set_events [] (state w)))))
       (messages w) (unhandled w)).
Proof.
  intros Hyt Hfb.
  unfold loadEvents, reset, setEvents, bind, mutate, promise_all. simpl.
  rewrite Hfb, Hyt. simpl.
  rewrite !forEach_push_map. simpl. reflexivity.
Qed.



(** An empty answer from both platforms is a loaded state too. *)
Lemma loadEvents_empty (Date_valueOf : JsTime -> Z) (env : Env) (w : World) :
  (forall w', loadYTBEvents env w' = (Ok [], w')) ->
  (forall w', loadFbEvents env w' = (Ok [], w')) ->
  events (state (snd (loadEvents Date_valueOf env w))) = []
  /\ isEventsLoaded (state (snd (loadEvents Date_valueOf env w))) = true.
Proof.
  intros Hyt Hfb.
  rewrite (loadEvents_run Date_valueOf env w [] [] Hyt Hfb). now split.
Qed.

(** ** Replacing an event: [setEvent] *)

Lemma setEvent_run (id : string) (event : IStreamEvent) (w : World) :
  setEvent id event w
  = (Ok tt,
     mkWorld (set_events (splice (findIndex (has_id id) (events (state w))) 1 event
                                 (events (state w))) (state w))
             (messages w) (unhandled w)).
Proof. reflexivity. Qed.

(** When an event with the id is in the list, the first such event is the
    one replaced and the length stays. *)
Lemma setEvent_present (id : string) (event : IStreamEvent) (w : World) before x after :
  events (state w) = before ++ x :: after ->
  ev_id x = id ->
  (forall y, In y before -> ev_id y <> id) ->
  events (state (snd (setEvent id event w))) = before ++ event :: after.
Proof.
  intros E Hx Hb. rewrite setEvent_run. simpl. rewrite E.
  assert (I : findIndex (has_id id) (before ++ x :: after) = Z.of_nat (length before)).
  { clear E. induction before as [|b before IH]; simpl.
    - unfold has_id. rewrite (proj2 (String.eqb_eq _ _) Hx). reflexivity.
    - assert (Nb : has_id id b = false).
      { unfold has_id. apply String.eqb_neq. apply Hb. now left. }
      rewrite Nb, IH by (intros; apply Hb; now right).
      destruct (Z.of_nat (length before) <? 0) eqn:L; [apply Z.ltb_lt in L; lia|lia]. }
  rewrite I. apply splice_inside.
Qed.

(** When no event has the id, the last event of a non-empty list is
    overwritten. *)
Lemma setEvent_absent (id : string) (event : IStreamEvent) (w : World) init x :
  events (state w) = init ++ [x] ->
  (forall y, In y (init ++ [x]) -> ev_id y <> id) ->
  events (state (snd (setEvent id event w))) = init ++ [event].
Proof.
  intros E Hn. rewrite setEvent_run. simpl. rewrite E.
  assert (I : findIndex (has_id id) (init ++ [x]) = -1).
  { apply findIndex_none. intros y Hy. unfold has_id. apply String.eqb_neq. now apply Hn. }
  rewrite I. apply splice_minus_one_last.
Qed.

(** ** Submitting *)

(** The scheduled resource is a broadcast exactly when the service is the
    YouTube one, which is what the cast in [saveNewStream] relies on. *)
Lemma service_scheduleStream_shape (env : Env) platform f t o video :
  service_scheduleStream env platform = Some f ->
  f t o = Resolved video ->
  match video with
  | YtVideo _ => platform = youtube
  | FbVideo _ => platform = facebook
  end.
Proof.
  destruct platform; simpl; try discriminate; intros [= <-].
  - destruct (yt_scheduleStream env t o); simpl; try discriminate. now intros [= <-].
  - destruct (fb_scheduleStream env t o); simpl; try discriminate. now intros [= <-].
Qed.

(** X8. Update mode, YouTube: the first event that has the id of the updated
    broadcast is replaced by its normalization, the list keeps its
    length and the modal closes. *)
Lemma submit_update_youtube
      (Date_valueOf : JsTime -> Z) (env : Env) (w : World) o b before x after :
  validateFields env = Resolved tt ->
  selectedEventId (state w) <> EmptyString ->
  selectedPlatform (state w) = youtube ->
  ps_youtube (platformSettings (state w)) = Some o ->
  updateBroadcast env (selectedEventId (state w)) (YoutubeSettings o) = Resolved b ->
  events (state w) = before ++ x :: after ->
  ev_id x = yt_id b ->
  (forall y, In y before -> ev_id y <> yt_id b) ->
  fst (submit Date_valueOf env w) = Ok tt
  /\ events (state (snd (submit Date_valueOf env w)))
     = before ++ convertYTBroadcastToEvent Date_valueOf b :: after
  /\ length (events (state (snd (submit Date_valueOf env w)))) = length (events (state w))
  /\ isModalVisible (state (snd (submit Date_valueOf env w))) = false
  /\ unhandled (snd (submit Date_valueOf env w)) = unhandled w.
Proof.
  intros Hv Hsel Hp Ho Hb E Hx Hbefore.
  assert (U : isUpdateMode (set_isLoading true (state w)) = true).
  { unfold isUpdateMode. simpl. apply negb_true_iff, String.eqb_neq. exact Hsel. }
  pose proof (setEvent_present (yt_id b) (convertYTBroadcastToEvent Date_valueOf b)
                (mkWorld (set_isLoading true (state w)) (messages w) (unhandled w))
                before x after E Hx Hbefore) as S.
  rewrite setEvent_run in S. simpl in S.
  unfold submit, try_catch, bind, await, ret, showLoader, mutate, get_state. simpl.
  rewrite Hv. simpl. rewrite U.
  unfold detach, saveExistingStream, bind, get_state, getDefined, platformSettings_get. simpl.
  rewrite Hp, Ho. simpl. unfold await. rewrite Hb. simpl.
  unfold has_id in S. rewrite S.
  repeat split. rewrite E, !length_app. reflexivity.
Qed.

(** C1, at a list that is not empty: a broadcast scheduled in create
    mode takes the place of the last event, so the list does not grow. *)
Theorem submit_create_overwrites_last_event :
  fst (submit Sample.Date_valueOf Sample.env_ok
         (Sample.world (Sample.opened [Sample.ytEvent "a" Sample.midnight] EmptyString youtube)))
  = Ok tt
  /\ events (state (snd (submit Sample.Date_valueOf Sample.env_ok
        (Sample.world (Sample.opened [Sample.ytEvent "a" Sample.midnight] EmptyString youtube)))))
     = [convertYTBroadcastToEvent Sample.Date_valueOf
          (Sample.broadcast "new" "created" Sample.ten_am)]
  /\ length (events (state (snd (submit Sample.Date_valueOf Sample.env_ok
        (Sample.world (Sample.opened [Sample.ytEvent "a" Sample.midnight] EmptyString youtube))))))
     = 1%nat
  /\ isModalVisible (state (snd (submit Sample.Date_valueOf Sample.env_ok
        (Sample.world (Sample.opened [Sample.ytEvent "a" Sample.midnight] EmptyString youtube)))))
     = false
  /\ messages (snd (submit Sample.Date_valueOf Sample.env_ok
        (Sample.world (Sample.opened [Sample.ytEvent "a" Sample.midnight] EmptyString youtube))))
     = []
  /\ unhandled (snd (submit Sample.Date_valueOf Sample.env_ok
        (Sample.world (Sample.opened [Sample.ytEvent "a" Sample.midnight] EmptyString youtube))))
     = [].
Proof. repeat split. Qed.

(** The same in general, for YouTube: with no event of the new id in a
    list [init ++ [x]], the result is [init ++ [new event]]. *)
Lemma submit_create_youtube
      (Date_valueOf : JsTime -> Z) (env : Env) (w : World) o b init x :
  validateFields env = Resolved tt ->
  selectedEventId (state w) = EmptyString ->
  selectedPlatform (state w) = youtube ->
  ps_youtube (platformSettings (state w)) = Some o ->
  yt_scheduleStream env (time (state w)) (YoutubeSettings o) = Resolved b ->
  events (state w) = init ++ [x] ->
  (forall y, In y (init ++ [x]) -> ev_id y <> yt_id b) ->
  fst (submit Date_valueOf env w) = Ok tt
  /\ events (state (snd (submit Date_valueOf env w)))
     = init ++ [convertYTBroadcastToEvent Date_valueOf b]
  /\ length (events (state (snd (submit Date_valueOf env w)))) = length (events (state w))
  /\ isModalVisible (state (snd (submit Date_valueOf env w))) = false.
Proof.
  intros Hv Hsel Hp Ho Hb E Hfresh.
  pose proof (setEvent_absent (yt_id b) (convertYTBroadcastToEvent Date_valueOf b)
                (mkWorld (set_isLoading true (state w)) (messages w) (unhandled w))
                init x E Hfresh) as S.
  rewrite setEvent_run in S. simpl in S.
  unfold submit, try_catch, bind, await, ret, showLoader, mutate, get_state. simpl.
  rewrite Hv. simpl. unfold isUpdateMode. simpl. rewrite Hsel. simpl.
  unfold detach, saveNewStream, try_catch, bind, get_state, getDefined,
    platformSettings_get. simpl.
  rewrite Hp, Ho. simpl. unfold await. rewrite Hb. simpl.
  unfold has_id in S. rewrite S.
  repeat split. rewrite E, !length_app. reflexivity.
Qed.

(** Only an empty list grows. *)
Lemma submit_create_youtube_first
      (Date_valueOf : JsTime -> Z) (env : Env) (w : World) o b :
  validateFields env = Resolved tt ->
  selectedEventId (state w) = EmptyString ->
  selectedPlatform (state w) = youtube ->
  ps_youtube (platformSettings (state w)) = Some o ->
  yt_scheduleStream env (time (state w)) (YoutubeSettings o) = Resolved b ->
  events (state w) = [] ->
  events (state (snd (submit Date_valueOf env w)))
  = [convertYTBroadcastToEvent Date_valueOf b].
Proof.
  intros Hv Hsel Hp Ho Hb E.
  unfold submit, try_catch, bind, await, ret, showLoader, mutate, get_state. simpl.
  rewrite Hv. simpl. unfold isUpdateMode. simpl. rewrite Hsel. simpl.
  unfold detach, saveNewStream, try_catch, bind, get_state, getDefined,
    platformSettings_get. simpl.
  rewrite Hp, Ho. simpl. unfold await. rewrite Hb. simpl.
  rewrite E. reflexivity.
Qed.

(** ** Failures of the platform calls *)

(** X9. A rejected [scheduleStream] is caught on either platform: one toast,
    the loader cleared, the modal and the list as they were, nothing left
    unhandled. *)
Lemma submit_create_rejected
      (Date_valueOf : JsTime -> Z) (env : Env) (w : World) o f e :
  validateFields env = Resolved tt ->
  selectedEventId (state w) = EmptyString ->
  platformSettings_get (platformSettings (state w)) (selectedPlatform (state w)) = Some o ->
  service_scheduleStream env (selectedPlatform (state w)) = Some f ->
  f (time (state w)) o = Rejected e ->
  submit Date_valueOf env w
  = (Ok tt,
     mkWorld (set_isLoading false (state w))
             (messages w ++ [if platform_eqb (selectedPlatform (state w)) facebook
                             then facebook_window_message
                             else cannot_schedule_message])
             (unhandled w)).
Proof.
  intros Hv Hsel Ho Hf He.
  unfold submit, try_catch, bind, await, ret, showLoader, mutate, get_state. simpl.
  rewrite Hv. simpl. unfold isUpdateMode. simpl. rewrite Hsel. simpl.
  unfold detach, saveNewStream, try_catch, bind, get_state, getDefined. simpl.
  rewrite Ho. simpl. rewrite Hf. simpl. unfold await. rewrite He. simpl.
  unfold handleError, bind, get_state, message_error, hideLoader, mutate. simpl.
  destruct (platform_eqb (selectedPlatform (state w)) facebook); reflexivity.
Qed.

(** X10. A rejected [updateLiveVideo] of an update on Facebook is caught
    the same way: the Facebook toast, the loader cleared, the modal and
    the list as they were, nothing left unhandled. *)
Lemma submit_update_facebook_rejected
      (Date_valueOf : JsTime -> Z) (env : Env) (w : World) o ev info e :
  validateFields env = Resolved tt ->
  selectedEventId (state w) <> EmptyString ->
  selectedPlatform (state w) = facebook ->
  ps_facebook (platformSettings (state w)) = Some o ->
  selectedEvent (state w) = Some ev ->
  ev_facebook ev = Some info ->
  updateLiveVideo env (selectedEventId (state w)) (FacebookSettings o) = Rejected e ->
  submit Date_valueOf env w
  = (Ok tt,
     mkWorld (set_isLoading false (state w))
             (messages w ++ [facebook_window_message])
             (unhandled w)).
Proof.
  intros Hv Hsel Hp Ho Hev Hinfo He.
  assert (U : isUpdateMode (set_isLoading true (state w)) = true).
  { unfold isUpdateMode. simpl. apply negb_true_iff, String.eqb_neq. exact Hsel. }
  assert (S : selectedEvent (set_isLoading true (state w)) = Some ev) by exact Hev.
  unfold submit, try_catch, bind, await, ret, showLoader, mutate, get_state. simpl.
  rewrite Hv. simpl. rewrite U.
  unfold detach, saveExistingStream, try_catch, bind, get_state, getDefined,
    platformSettings_get. simpl.
  rewrite Hp, Ho. simpl. rewrite S. simpl. rewrite Hinfo. simpl.
  unfold await. rewrite He. simpl.
  unfold handleError, bind, get_state, message_error, hideLoader, mutate. simpl.
  rewrite Hp. reflexivity.
Qed.

(** C2, at the YouTube branch of the update: a rejected [updateBroadcast]
    meets no handler.  No toast is shown, the loader stays on, and the
    rejection is left unhandled. *)
Theorem submit_update_youtube_rejected_unhandled :
  submit Sample.Date_valueOf Sample.env_rejecting
    (Sample.world (Sample.opened [Sample.ytEvent "a" Sample.midnight] "a" youtube))
  = (Ok tt,
     mkWorld
       (set_isLoading true (Sample.opened [Sample.ytEvent "a" Sample.midnight] "a" youtube))
       []
       [PlatformError "rejected"%string]).
Proof. reflexivity. Qed.

(** In general: whatever the state, a rejected [updateBroadcast] of an
    update on YouTube adds no toast and leaves the loader on. *)
Lemma submit_update_youtube_rejected
      (Date_valueOf : JsTime -> Z) (env : Env) (w : World) o e :
  validateFields env = Resolved tt ->
  selectedEventId (state w) <> EmptyString ->
  selectedPlatform (state w) = youtube ->
  ps_youtube (platformSettings (state w)) = Some o ->
  updateBroadcast env (selectedEventId (state w)) (YoutubeSettings o) = Rejected e ->
  submit Date_valueOf env w
  = (Ok tt,
     mkWorld (set_isLoading true (state w)) (messages w)
             (unhandled w ++ [PlatformError e])).
Proof.
  intros Hv Hsel Hp Ho He.
  assert (U : isUpdateMode (set_isLoading true (state w)) = true).
  { unfold isUpdateMode. simpl. apply negb_true_iff, String.eqb_neq. exact Hsel. }
  unfold submit, try_catch, bind, await, ret, showLoader, mutate, get_state. simpl.
  rewrite Hv. simpl. rewrite U.
  unfold detach, saveExistingStream, bind, get_state, getDefined, platformSettings_get. simpl.
  rewrite Hp, Ho. simpl. unfold await. rewrite He. reflexivity.
Qed.

(** ** The key of an event *)

Lemma find_first {A} (p : A -> bool) (l : list A) (x : A) :
  find p l = Some x
  <-> exists before after,
        l = before ++ x :: after /\ p x = true /\ (forall y, In y before -> p y = false).
Proof.
  induction l as [|a l IH]; simpl.
  - split; [discriminate|]. intros (before & after & E & _). now destruct before.
  - destruct (p a) eqn:Pa.
    + split.
      * intros [= <-]. exists [], l. simpl. repeat split; auto. intros y [].
      * intros (before & after & E & Px & Hb).
        destruct before as [|b before]; simpl in E.
        -- now injection E as ->.
        -- injection E as <- _. specialize (Hb a (or_introl eq_refl)). congruence.
    + rewrite IH. split.
      * intros (before & after & -> & Px & Hb).
        exists (a :: before), after. simpl. repeat split; auto.
        intros y [<-|Hy]; auto.
      * intros (before & after & E & Px & Hb).
        destruct before as [|b before]; simpl in E.
        -- injection E as -> _. congruence.
        -- injection E as <- ->. exists before, after. repeat split; auto.
           intros y Hy. apply Hb. now right.
Qed.

(** C3, as found in the code: two events that share an id and differ in
    platform are not told apart.  With the form on Facebook, the lookup
    answers the YouTube event, a replacement by a Facebook event
    overwrites the YouTube event, and the removal deletes both. *)
Lemma id_collision_counterexample :
  selectedEvent
    (Sample.opened [Sample.ytEvent "x" Sample.midnight; Sample.fbEvent "x" Sample.ten_am]
                   "x" facebook)
  = Some (Sample.ytEvent "x" Sample.midnight)
  /\ ev_platform (Sample.ytEvent "x" Sample.midnight) <> facebook
  /\ events (state (snd (setEvent "x" (Sample.fbEvent "x" 0)
       (Sample.world
          (Sample.opened [Sample.ytEvent "x" Sample.midnight; Sample.fbEvent "x" Sample.ten_am]
                         "x" facebook)))))
     = [Sample.fbEvent "x" 0; Sample.fbEvent "x" Sample.ten_am]
  /\ events (state (snd (REMOVE_EVENT "x"
       (Sample.world
          (Sample.opened [Sample.ytEvent "x" Sample.midnight; Sample.fbEvent "x" Sample.ten_am]
                         "x" facebook)))))
     = [].
Proof. repeat split. discriminate. Qed.

(** C3, amended: the id alone is the key.  [selectedEvent] is the first
    event whose id is [selectedEventId]; [setEvent] replaces the first
    event that has the id, when there is one; [REMOVE_EVENT] keeps
    exactly the events of another id.  The platform plays no part. *)
Theorem id_alone_is_the_key :
  (forall s ev,
      selectedEvent s = Some ev
      <-> exists before after,
            events s = before ++ ev :: after
            /\ ev_id ev = selectedEventId s
            /\ (forall y, In y before -> ev_id y <> selectedEventId s))
  /\ (forall id event w before x after,
        events (state w) = before ++ x :: after ->
        ev_id x = id ->
        (forall y, In y before -> ev_id y <> id) ->
        events (state (snd (setEvent id event w))) = before ++ event :: after)
  /\ (forall id w ev,
        In ev (events (state (snd (REMOVE_EVENT id w))))
        <-> In ev (events (state w)) /\ ev_id ev <> id).
Proof.
  split; [|split].
  - intros s ev. unfold selectedEvent, array_find. rewrite find_first.
    split; intros (before & after & E & Hx & Hb); exists before, after;
      (split; [exact E|split]).
    + apply String.eqb_eq in Hx. now symmetry.
    + intros y Hy. specialize (Hb y Hy). apply String.eqb_neq in Hb. congruence.
    + apply String.eqb_eq. now symmetry.
    + intros y Hy. apply String.eqb_neq. specialize (Hb y Hy). congruence.
  - intros. eapply setEvent_present; eauto.
  - intros id w ev. unfold REMOVE_EVENT, mutate. simpl.
    rewrite filter_In, negb_true_iff, String.eqb_neq. reflexivity.
Qed.

(** ** Opening the modal for a new event *)


(** The rejection itself is as specified.  The time [t] the command tests
    is the value of the Moment passed when that value is not zero, and
    the stored draft time when no Moment is passed (and, by the slip
    above, when the value passed is zero).  When [t] is before the start
    of the current local day, the command shows the error and the state
    stays as it was. *)
Theorem showNewEventModal_past_date
        (env : Env) (w : World) (platform : TPlatform) (selectedTime : option Z) (t : Z) :
  (selectedTime = Some t /\ t <> 0)
  \/ ((selectedTime = None \/ selectedTime = Some 0) /\ t = time (state w)) ->
  t < startOfDay (utcOffset env) (now env) ->
  showNewEventModal env platform selectedTime w
  = (Ok tt,
     mkWorld (state w) (messages w ++ ["You can not schedule to a past date"%string])
             (unhandled w)).
Proof.
  intros Ht Hpast.
  assert (E : valueOf_or selectedTime (time (state w)) = t).
  { destruct Ht as [[-> Hnz]|[[->| ->] ->]]; simpl; auto.
    destruct (t =? 0) eqn:Z0; [apply Z.eqb_eq in Z0; contradiction|reflexivity]. }
  unfold showNewEventModal, bind, get_state. simpl. rewrite E.
  apply Z.ltb_lt in Hpast. rewrite Hpast. reflexivity.
Qed.

(** A day in 2023 is asked for on 2024-01-01. *)
Lemma showNewEventModal_past_date_witness :
  showNewEventModal Sample.env_ok youtube (Some (Sample.midnight - 1))
    (Sample.world (Sample.closed [] facebook 0))
  = (Ok tt,
     mkWorld (Sample.closed [] facebook 0) ["You can not schedule to a past date"%string] []).
Proof.
  apply (showNewEventModal_past_date Sample.env_ok
           (Sample.world (Sample.closed [] facebook 0)) youtube
           (Some (Sample.midnight - 1)) (Sample.midnight - 1)).
  - left. split; [reflexivity|discriminate].
  - reflexivity.
Defined.

(** ** Removing an event *)

(** The three ways [remove] can go: on YouTube it never looks the event
    up; elsewhere it needs the selected event and its [facebook]
    sub-record, and throws before any removal when one is missing. *)
Lemma remove_run (env : Env) (w : World) :
  remove env w
  = if platform_eqb (selectedPlatform (state w)) youtube then
      (Ok tt,
       mkWorld
         (mkState false (isEventsLoaded (state w))
                  (filter (other_id (selectedEventId (state w))) (events (state w)))
                  false EmptyString (time (state w)) (selectedPlatform (state w))
                  (defaultPlatformSettings env))
         (messages w)
         (match removeBroadcast env (selectedEventId (state w)) with
          | Rejected e => unhandled w ++ [PlatformError e]
          | _ => unhandled w
          end))
    else
      match selectedEvent (state w) with
      | None =>
          (Throw AssertionError,
           mkWorld (set_isLoading true (state w)) (messages w) (unhandled w))
      | Some ev =>
          match ev_facebook ev with
          | None =>
              (Throw AssertionError,
               mkWorld (set_isLoading true (state w)) (messages w) (unhandled w))
          | Some info =>
              (Ok tt,
               mkWorld
                 (mkState false (isEventsLoaded (state w))
                          (filter (other_id (selectedEventId (state w))) (events (state w)))
                          false EmptyString (time (state w)) (selectedPlatform (state w))
                          (defaultPlatformSettings env))
                 (messages w)
                 (match removeLiveVideo env (selectedEventId (state w)) info with
                  | Rejected e => unhandled w ++ [PlatformError e]
                  | _ => unhandled w
                  end))
          end
      end.
Proof.
  unfold remove, bind, get_state, showLoader, mutate. simpl.
  destruct (platform_eqb (selectedPlatform (state w)) youtube).
  - unfold detach_promise, detach, bind, await, ret.
    destruct (removeBroadcast env (selectedEventId (state w))); reflexivity.
  - destruct (selectedEvent (state w)) as [ev|]; simpl; [|reflexivity].
    destruct (ev_facebook ev) as [info|]; simpl; [|reflexivity].
    unfold detach_promise, detach, bind, await, ret.
    destruct (removeLiveVideo env (selectedEventId (state w)) info); reflexivity.
Qed.

(** C8, as found in the code: the form is on Facebook and the event that
    has the selected id carries no [facebook] sub-record.  [remove]
    throws before the removal; the event stays and the modal stays open. *)
Lemma remove_guard_counterexample :
  In (Sample.ytEvent "x" Sample.midnight)
     (events (Sample.opened [Sample.ytEvent "x" Sample.midnight] "x" facebook))
  /\ remove Sample.env_ok
       (Sample.world (Sample.opened [Sample.ytEvent "x" Sample.midnight] "x" facebook))
     = (Throw AssertionError,
        Sample.world
          (set_isLoading true
             (Sample.opened [Sample.ytEvent "x" Sample.midnight] "x" facebook)))
  /\ events (state (snd (remove Sample.env_ok
       (Sample.world (Sample.opened [Sample.ytEvent "x" Sample.midnight] "x" facebook)))))
     = [Sample.ytEvent "x" Sample.midnight]
  /\ isModalVisible (state (snd (remove Sample.env_ok
       (Sample.world (Sample.opened [Sample.ytEvent "x" Sample.midnight] "x" facebook)))))
     = true.
Proof. repeat split. now left. Qed.

(** C8, amended: when an event with the selected id is present and, the
    platform of the form not being YouTube, the first such event carries
    a [facebook] sub-record, [remove] returns with every event of that id
    gone from the list and the modal closed.  The state it leaves is the
    same whether the promise of the remote delete is pending, resolved or
    rejected: none of it depends on that promise. *)
Theorem remove_spec (env : Env) (w : World) (ev : IStreamEvent) :
  selectedEvent (state w) = Some ev ->
  selectedPlatform (state w) = youtube \/ ev_facebook ev <> None ->
  fst (remove env w) = Ok tt
  /\ state (snd (remove env w))
     = mkState false (isEventsLoaded (state w))
               (filter (other_id (selectedEventId (state w))) (events (state w)))
               false EmptyString (time (state w)) (selectedPlatform (state w))
               (defaultPlatformSettings env)
  /\ (forall x, In x (events (state (snd (remove env w)))) ->
                ev_id x <> selectedEventId (state w))
  /\ ~ In ev (events (state (snd (remove env w))))
  /\ isModalVisible (state (snd (remove env w))) = false
  /\ messages (snd (remove env w)) = messages w.
Proof.
  intros Hev Hguard.
  assert (Hid : ev_id ev = selectedEventId (state w)).
  { unfold selectedEvent, array_find in Hev. apply find_some in Hev.
    destruct Hev as [_ Hev]. apply String.eqb_eq in Hev. now symmetry. }
  assert (Hgone : forall x,
             In x (filter (other_id (selectedEventId (state w))) (events (state w))) ->
             ev_id x <> selectedEventId (state w)).
  { intros x Hx. apply filter_In in Hx. destruct Hx as [_ Hx].
    unfold other_id, has_id in Hx. now apply negb_true_iff, String.eqb_neq in Hx. }
  rewrite remove_run.
  destruct (platform_eqb (selectedPlatform (state w)) youtube) eqn:P.
  - simpl. repeat split; auto. intros Hin. now apply Hgone in Hin.
  - rewrite Hev.
    destruct Hguard as [Hy|Hfb].
    + rewrite Hy in P. discriminate.
    + destruct (ev_facebook ev) as [info|]; [|congruence].
      simpl. repeat split; auto. intros Hin. now apply Hgone in Hin.
Qed.

(** A selected Facebook event whose remote delete is rejected. *)
Lemma remove_spec_witness :
  fst (remove Sample.env_rejecting
         (Sample.world (Sample.opened [Sample.fbEvent "f" Sample.ten_am] "f" facebook)))
  = Ok tt
  /\ events (state (snd (remove Sample.env_rejecting
         (Sample.world (Sample.opened [Sample.fbEvent "f" Sample.ten_am] "f" facebook)))))
     = []
  /\ isModalVisible (state (snd (remove Sample.env_rejecting
         (Sample.world (Sample.opened [Sample.fbEvent "f" Sample.ten_am] "f" facebook)))))
     = false.
Proof.
  assert (G : ev_facebook (Sample.fbEvent "f" Sample.ten_am) <> None) by discriminate.
  destruct (remove_spec Sample.env_rejecting
              (Sample.world (Sample.opened [Sample.fbEvent "f" Sample.ten_am] "f" facebook))
              (Sample.fbEvent "f" Sample.ten_am) eq_refl (or_intror G))
    as (R & S & _ & _ & V & _).
  split; [exact R|split; [rewrite S; reflexivity|exact V]].
Defined.

(** C10. Whatever the state and however [remove] ends, the events whose id
    differs from [selectedEventId] are in the list afterwards as they
    were before: the same records in the same order. *)
Theorem remove_frame (env : Env) (w : World) :
  filter (other_id (selectedEventId (state w))) (events (state (snd (remove env w))))
  = filter (other_id (selectedEventId (state w))) (events (state w))
  /\ (forall x, In x (events (state w)) ->
                ev_id x <> selectedEventId (state w) ->
                In x (events (state (snd (remove env w)))))
  /\ (forall x, In x (events (state (snd (remove env w)))) -> In x (events (state w))).
Proof.
  set (keep := other_id (selectedEventId (state w))).
  assert (Idem : filter keep (filter keep (events (state w))) = filter keep (events (state w))).
  { induction (events (state w)) as [|a l IH]; simpl; [reflexivity|].
    destruct (keep a) eqn:K; simpl; [rewrite K, IH; reflexivity|exact IH]. }
  assert (Cases : events (state (snd (remove env w))) = filter keep (events (state w))
                  \/ events (state (snd (remove env w))) = events (state w)).
  { rewrite remove_run.
    destruct (platform_eqb (selectedPlatform (state w)) youtube); [now left|].
    destruct (selectedEvent (state w)) as [ev|]; [|now right].
    destruct (ev_facebook ev); [now left|now right]. }
  destruct Cases as [-> | ->].
  - split; [exact Idem|split].
    + intros x Hx Hid. apply filter_In. split; [exact Hx|].
      unfold keep, other_id, has_id. now apply negb_true_iff, String.eqb_neq.
    + intros x Hx. now apply filter_In in Hx.
  - repeat split; auto.
Qed.

(** ** The day cells of the calendar *)

Lemma insert_by_date_perm ev l : Permutation (insert_by_date ev l) (ev :: l).
Proof.
  induction l as [|x l IH]; simpl; [reflexivity|].
  destruct (ev_date ev - ev_date x <=? 0); [reflexivity|].
  rewrite IH. apply perm_swap.
Qed.

Lemma sort_by_date_perm l : Permutation (sort_by_date l) l.
Proof.
  induction l as [|x l IH]; simpl; [reflexivity|].
  rewrite insert_by_date_perm. now constructor.
Qed.

Lemma insert_by_date_sorted ev l :
  Sorted by_date l -> Sorted by_date (insert_by_date ev l).
Proof.
  induction l as [|x l IH]; simpl; intros S.
  - repeat constructor.
  - destruct (ev_date ev - ev_date x <=? 0) eqn:C.
    + apply Z.leb_le in C. constructor; [exact S|]. constructor. unfold by_date. lia.
    + apply Z.leb_gt in C. inversion S as [|? ? S' H]; subst.
      constructor; [now apply IH|].
      destruct l as [|y l]; simpl.
      * constructor. unfold by_date. lia.
      * destruct (ev_date ev - ev_date y <=? 0).
        -- constructor. unfold by_date. lia.
        -- inversion H; subst. now constructor.
Qed.

Lemma sort_by_date_sorted l : Sorted by_date (sort_by_date l).
Proof.
  induction l as [|x l IH]; simpl; [constructor|].
  now apply insert_by_date_sorted.
Qed.

(** A cell is in ascending order of time. *)
Lemma dateCellRender_sorted utcOffset evs date :
  Sorted by_date (dateCellRender utcOffset evs date).
Proof. apply sort_by_date_sorted. Qed.

(** A cell lists the events strictly between the first and the last
    millisecond of the day. *)
Lemma dateCellRender_In utcOffset evs date ev :
  In ev (dateCellRender utcOffset evs date)
  <-> In ev evs
      /\ startOfDay utcOffset date < ev_date ev < endOfDay utcOffset date.
Proof.
  unfold dateCellRender. split.
  - intros H. apply (Permutation_in _ (sort_by_date_perm _)) in H.
    apply filter_In in H. destruct H as [Hin Hb].
    unfold isBetween in Hb. apply andb_true_iff in Hb.
    rewrite !Z.ltb_lt in Hb. tauto.
  - intros [Hin Hb].
    apply (Permutation_in _ (Permutation_sym (sort_by_date_perm _))).
    apply filter_In. split; [exact Hin|].
    unfold isBetween. apply andb_true_iff. rewrite !Z.ltb_lt. tauto.
Qed.

(** The local day of [date] runs from its first to its last millisecond,
    both included. *)
Lemma onSameDay_bounds utcOffset t date :
  onSameDay utcOffset t date = true
  <-> startOfDay utcOffset date <= t <= endOfDay utcOffset date.
Proof.
  unfold onSameDay, endOfDay, startOfDay, MS_PER_DAY.
  set (c := utcOffset * MS_PER_MINUTE).
  pose proof (Z.mod_pos_bound (t + c) 86400000 ltac:(lia)) as Bt.
  pose proof (Z.mod_pos_bound (date + c) 86400000 ltac:(lia)) as Bd.
  rewrite Z.eqb_eq. split.
  - intros E. lia.
  - intros [Lo Hi].
    pose proof (Z.div_mod (date + c) 86400000 ltac:(lia)) as Dd.
    assert (R : t - (date - (date + c) mod 86400000) = (t + c) mod 86400000).
    { apply (Z.mod_unique_pos (t + c) 86400000 ((date + c) / 86400000)); lia. }
    lia.
Qed.

(** So the events of the day that a cell leaves out are those at the
    first and at the last millisecond of the day. *)
Lemma dateCellRender_on_day utcOffset evs date ev :
  In ev (dateCellRender utcOffset evs date)
  <-> In ev evs
      /\ onSameDay utcOffset (ev_date ev) date = true
      /\ ev_date ev <> startOfDay utcOffset date
      /\ ev_date ev <> endOfDay utcOffset date.
Proof.
  rewrite dateCellRender_In, onSameDay_bounds. split.
  - intros (Hin & Lo & Hi). repeat split; auto; lia.
  - intros (Hin & [Lo Hi] & N1 & N2). split; [exact Hin|lia].
Qed.

(** C9, at the two ends of a day: an event at 2024-01-01T00:00:00.000
    and one at 2024-01-01T23:59:59.999 are on the day of
    2024-01-01T10:00 (UTC), and the cell of that day lists neither. *)
Theorem dateCellRender_misses_day_bounds :
  onSameDay 0 Sample.midnight Sample.ten_am = true
  /\ onSameDay 0 (Sample.midnight + 86399999) Sample.ten_am = true
  /\ dateCellRender 0
       [Sample.ytEvent "first" Sample.midnight;
        Sample.ytEvent "last" (Sample.midnight + 86399999)]
       Sample.ten_am
     = []
  /\ dateCellRender 0
       [Sample.ytEvent "late" (Sample.midnight + 86399998);
        Sample.ytEvent "first" Sample.midnight;
        Sample.ytEvent "early" (Sample.midnight + 1)]
       Sample.ten_am
     = [Sample.ytEvent "early" (Sample.midnight + 1);
        Sample.ytEvent "late" (Sample.midnight + 86399998)].
Proof. repeat split. Qed.

(** An event at the first millisecond of its day shows in no cell at all. *)
Lemma midnight_event_in_no_cell utcOffset evs ev :
  ev_date ev = startOfDay utcOffset (ev_date ev) ->
  forall date, ~ In ev (dateCellRender utcOffset evs date).
Proof.
  intros Hmid date Hin.
  apply dateCellRender_on_day in Hin.
  destruct Hin as (_ & Hday & Hstart & _).
  unfold onSameDay in Hday. apply Z.eqb_eq in Hday. congruence.
Qed.

(** * Further properties of the module *)

(** ** Closing the modal *)

Lemma closeModal_run (env : Env) (w : World) :
  closeModal env w
  = (Ok tt,
     mkWorld (mkState false (isEventsLoaded (state w)) (events (state w)) false
                      EmptyString (time (state w)) (selectedPlatform (state w))
                      (defaultPlatformSettings env))
             (messages w) (unhandled w)).
Proof. reflexivity. Qed.

(** X1. Closing twice is closing once; and closing leaves the events, the
    draft time, the platform and the loaded flag as they were, puts the
    module back in create mode and clears the loader. *)
Theorem closeModal_idempotent (env : Env) (w : World) :
  (closeModal env;; closeModal env) w = closeModal env w
  /\ events (state (snd (closeModal env w))) = events (state w)
  /\ time (state (snd (closeModal env w))) = time (state w)
  /\ selectedPlatform (state (snd (closeModal env w))) = selectedPlatform (state w)
  /\ isEventsLoaded (state (snd (closeModal env w))) = isEventsLoaded (state w)
  /\ isUpdateMode (state (snd (closeModal env w))) = false
  /\ isLoading (state (snd (closeModal env w))) = false
  /\ isModalVisible (state (snd (closeModal env w))) = false.
Proof. repeat split. Qed.

(** ** The draft time *)

(** The start-time field of the draft of [platform]. *)
Lemma setTime_run_facebook (w : World) (t : Z) fb :
  selectedPlatform (state w) = facebook ->
  ps_facebook (platformSettings (state w)) = Some fb ->
  setTime t w
  = (Ok tt,
     mkWorld
       (set_platformSettings
          (mkPlatformSettings (ps_youtube (platformSettings (state w)))
             (Some (mkFbOptions (liveVideoId fb) (fbo_title fb)
                                (fbo_destinationType fb) (Some t))))
          (set_time t (state w)))
       (messages w) (unhandled w)).
Proof.
  intros Hp Hfb. unfold setTime, bind, mutate, get_state, getDefined. simpl.
  rewrite Hp. simpl. rewrite Hfb. reflexivity.
Qed.

Lemma setTime_run_other (w : World) (t : Z) yt :
  selectedPlatform (state w) <> facebook ->
  ps_youtube (platformSettings (state w)) = Some yt ->
  setTime t w
  = (Ok tt,
     mkWorld
       (set_platformSettings
          (mkPlatformSettings
             (Some (mkYtOptions (broadcastId yt) (yto_title yt) (Some t)))
             (ps_facebook (platformSettings (state w))))
          (set_time t (state w)))
       (messages w) (unhandled w)).
Proof.
  intros Hp Hyt. unfold setTime, bind, mutate, get_state, getDefined. simpl.
  destruct (platform_eqb (selectedPlatform (state w)) facebook) eqn:E.
  - apply platform_eqb_eq in E. contradiction.
  - simpl. rewrite Hyt. reflexivity.
Qed.

(** X2. With the form on Facebook and a Facebook draft in place,
    [setTime t] stores [t] both as the draft time and as the planned
    start time of the Facebook draft; the other fields of that draft, the
    YouTube draft, the events and the selection stay as they were. *)
Theorem setTime_facebook_in_sync (w : World) (t : Z) fb :
  selectedPlatform (state w) = facebook ->
  ps_facebook (platformSettings (state w)) = Some fb ->
  fst (setTime t w) = Ok tt
  /\ time (state (snd (setTime t w))) = t
  /\ ps_facebook (platformSettings (state (snd (setTime t w))))
     = Some (mkFbOptions (liveVideoId fb) (fbo_title fb) (fbo_destinationType fb) (Some t))
  /\ ps_youtube (platformSettings (state (snd (setTime t w))))
     = ps_youtube (platformSettings (state w))
  /\ events (state (snd (setTime t w))) = events (state w)
  /\ selectedEventId (state (snd (setTime t w))) = selectedEventId (state w)
  /\ isModalVisible (state (snd (setTime t w))) = isModalVisible (state w).
Proof.
  intros Hp Hfb. rewrite (setTime_run_facebook w t fb Hp Hfb). repeat split.
Qed.

Lemma setTime_facebook_in_sync_witness :
  time (state (snd (setTime 5 (Sample.world (Sample.opened [] EmptyString facebook))))) = 5
  /\ ps_facebook (platformSettings
       (state (snd (setTime 5 (Sample.world (Sample.opened [] EmptyString facebook))))))
     = Some (mkFbOptions EmptyString "Live" "page" (Some 5)).
Proof.
  destruct (setTime_facebook_in_sync
              (Sample.world (Sample.opened [] EmptyString facebook)) 5
              (mkFbOptions EmptyString "Live" "page" None) eq_refl eq_refl)
    as (_ & T & F & _).
  split; [exact T|exact F].
Defined.

(** X3. On every other platform [setTime t] writes the scheduled start
    time of the YouTube draft, and the Facebook draft stays as it was. *)
Theorem setTime_other_in_sync (w : World) (t : Z) yt :
  selectedPlatform (state w) <> facebook ->
  ps_youtube (platformSettings (state w)) = Some yt ->
  fst (setTime t w) = Ok tt
  /\ time (state (snd (setTime t w))) = t
  /\ ps_youtube (platformSettings (state (snd (setTime t w))))
     = Some (mkYtOptions (broadcastId yt) (yto_title yt) (Some t))
  /\ ps_facebook (platformSettings (state (snd (setTime t w))))
     = ps_facebook (platformSettings (state w))
  /\ events (state (snd (setTime t w))) = events (state w)
  /\ selectedEventId (state (snd (setTime t w))) = selectedEventId (state w)
  /\ isModalVisible (state (snd (setTime t w))) = isModalVisible (state w).
Proof.
  intros Hp Hyt. rewrite (setTime_run_other w t yt Hp Hyt). repeat split.
Qed.

Lemma setTime_other_in_sync_witness :
  time (state (snd (setTime 5 (Sample.world (Sample.opened [] EmptyString twitch))))) = 5
  /\ ps_youtube (platformSettings
       (state (snd (setTime 5 (Sample.world (Sample.opened [] EmptyString twitch))))))
     = Some (mkYtOptions EmptyString "Stream" (Some 5)).
Proof.
  assert (N : selectedPlatform (state (Sample.world (Sample.opened [] EmptyString twitch)))
              <> facebook) by discriminate.
  destruct (setTime_other_in_sync
              (Sample.world (Sample.opened [] EmptyString twitch)) 5
              (mkYtOptions EmptyString "Stream" None) N eq_refl)
    as (_ & T & Y & _).
  split; [exact T|exact Y].
Defined.

(** X4. When the draft that [setTime] has to write is missing, it throws
    from [getDefined] and writes no draft: the drafts, the events, the
    selection, the platform and the flags of the module are those before
    the call, and no toast is shown.  (Whether the store keeps the write
    to [time] made before the throw is not stated.) *)
Theorem setTime_missing_draft (w : World) (t : Z) :
  (if platform_eqb (selectedPlatform (state w)) facebook
   then ps_facebook (platformSettings (state w)) = None
   else ps_youtube (platformSettings (state w)) = None) ->
  fst (setTime t w) = Throw AssertionError
  /\ platformSettings (state (snd (setTime t w))) = platformSettings (state w)
  /\ events (state (snd (setTime t w))) = events (state w)
  /\ selectedEventId (state (snd (setTime t w))) = selectedEventId (state w)
  /\ selectedPlatform (state (snd (setTime t w))) = selectedPlatform (state w)
  /\ isModalVisible (state (snd (setTime t w))) = isModalVisible (state w)
  /\ isLoading (state (snd (setTime t w))) = isLoading (state w)
  /\ isEventsLoaded (state (snd (setTime t w))) = isEventsLoaded (state w)
  /\ messages (snd (setTime t w)) = messages w
  /\ unhandled (snd (setTime t w)) = unhandled w.
Proof.
  unfold setTime, bind, mutate, get_state, getDefined. simpl.
  destruct (platform_eqb (selectedPlatform (state w)) facebook);
    intros ->; repeat split.
Qed.

Lemma setTime_missing_draft_witness :
  fst (setTime 5 (mkWorld (set_platformSettings (mkPlatformSettings None None)
                             (Sample.opened [] EmptyString youtube)) [] []))
  = Throw AssertionError
  /\ platformSettings
       (state (snd (setTime 5
          (mkWorld (set_platformSettings (mkPlatformSettings None None)
                      (Sample.opened [] EmptyString youtube)) [] []))))
     = mkPlatformSettings None None.
Proof.
  destruct (setTime_missing_draft
              (mkWorld (set_platformSettings (mkPlatformSettings None None)
                          (Sample.opened [] EmptyString youtube)) [] []) 5 eq_refl)
    as (T & D & _).
  split; [exact T|exact D].
Defined.

(** ** Opening the modal for a new event, the accepted case *)

(** X5. When the requested time is today or later and the draft of the
    chosen platform exists, [showNewEventModal] opens the modal on that
    platform and stores the time both as the draft time and in the draft
    of the platform.  The events and the selected event id stay as they
    were, and no toast is shown. *)
Theorem showNewEventModal_accepts
        (env : Env) (w : World) (platform : TPlatform) (selectedTime : option Z) (t : Z) :
  (selectedTime = Some t /\ t <> 0)
  \/ ((selectedTime = None \/ selectedTime = Some 0) /\ t = time (state w)) ->
  startOfDay (utcOffset env) (now env) <= t ->
  (if platform_eqb platform facebook
   then ps_facebook (platformSettings (state w)) <> None
   else ps_youtube (platformSettings (state w)) <> None) ->
  fst (showNewEventModal env platform selectedTime w) = Ok tt
  /\ isModalVisible (state (snd (showNewEventModal env platform selectedTime w))) = true
  /\ selectedPlatform (state (snd (showNewEventModal env platform selectedTime w)))
     = platform
  /\ time (state (snd (showNewEventModal env platform selectedTime w))) = t
  /\ draft_time (platformSettings (state (snd (showNewEventModal env platform selectedTime w))))
                platform = Some t
  /\ events (state (snd (showNewEventModal env platform selectedTime w)))
     = events (state w)
  /\ selectedEventId (state (snd (showNewEventModal env platform selectedTime w)))
     = selectedEventId (state w)
  /\ messages (snd (showNewEventModal env platform selectedTime w)) = messages w.
Proof.
  intros Ht Htoday Hdraft.
  assert (E : valueOf_or selectedTime (time (state w)) = t).
  { destruct Ht as [[-> Hnz]|[[->| ->] ->]]; simpl; auto.
    destruct (t =? 0) eqn:Z0; [apply Z.eqb_eq in Z0; contradiction|reflexivity]. }
  apply Z.ltb_ge in Htoday.
  unfold showNewEventModal, bind, get_state. simpl. rewrite E, Htoday.
  unfold mutate. simpl.
  set (w1 := mkWorld (set_isModalVisible true (set_selectedPlatform platform (state w)))
                     (messages w) (unhandled w)).
  destruct (platform_eqb platform facebook) eqn:P.
  - apply platform_eqb_eq in P. subst platform.
    destruct (ps_facebook (platformSettings (state w))) as [fb|] eqn:F; [|congruence].
    rewrite (setTime_run_facebook w1 t fb eq_refl F). simpl. repeat split.
  - assert (N : platform <> facebook).
    { intros ->. discriminate. }
    destruct (ps_youtube (platformSettings (state w))) as [yt|] eqn:Y; [|congruence].
    rewrite (setTime_run_other w1 t yt N Y). simpl.
    unfold draft_time. rewrite P. simpl. repeat split.
Qed.

Lemma showNewEventModal_accepts_witness :
  isModalVisible (state (snd (showNewEventModal Sample.env_ok facebook
     (Some (Sample.ten_am + 1)) (Sample.world (Sample.closed [] youtube 0))))) = true
  /\ time (state (snd (showNewEventModal Sample.env_ok facebook
     (Some (Sample.ten_am + 1)) (Sample.world (Sample.closed [] youtube 0)))))
     = Sample.ten_am + 1.
Proof.
  assert (R : (Some (Sample.ten_am + 1) = Some (Sample.ten_am + 1)
               /\ Sample.ten_am + 1 <> 0)
              \/ ((Some (Sample.ten_am + 1) = None \/ Some (Sample.ten_am + 1) = Some 0)
                  /\ Sample.ten_am + 1
                     = time (state (Sample.world (Sample.closed [] youtube 0)))))
    by (left; split; [reflexivity|discriminate]).
  assert (T : startOfDay (utcOffset Sample.env_ok) (now Sample.env_ok)
              <= Sample.ten_am + 1) by (vm_compute; discriminate).
  assert (D : ps_facebook (platformSettings
                (state (Sample.world (Sample.closed [] youtube 0)))) <> None)
    by discriminate.
  destruct (showNewEventModal_accepts Sample.env_ok
              (Sample.world (Sample.closed [] youtube 0)) facebook
              (Some (Sample.ten_am + 1)) (Sample.ten_am + 1) R T D)
    as (_ & V & _ & Tm & _).
  split; [exact V|exact Tm].
Defined.

(** ** Submitting: the form and the pending call *)

(** X6. When the form does not validate, [submit] shows the
    invalid-settings toast and does nothing else: the state is the one
    before, the loader included, and no platform call is reached. *)
Theorem submit_invalid_form
        (Date_valueOf : JsTime -> Z) (env : Env) (w : World) (e : IStreamError) :
  validateFields env = Rejected e ->
  submit Date_valueOf env w
  = (Ok tt,
     mkWorld (state w)
             (messages w ++ ["Invalid settings. Please check the form"%string])
             (unhandled w)).
Proof.
  intros Hv. unfold submit, try_catch, bind, await. rewrite Hv. reflexivity.
Qed.

Lemma submit_invalid_form_witness :
  submit Sample.Date_valueOf SampleEdit.env_facebook_only
    (Sample.world (Sample.opened [] EmptyString facebook))
  = (Ok tt,
     mkWorld (Sample.opened [] EmptyString facebook)
             ["Invalid settings. Please check the form"%string] []).
Proof.
  apply (submit_invalid_form Sample.Date_valueOf SampleEdit.env_facebook_only
           (Sample.world (Sample.opened [] EmptyString facebook)) "invalid"%string).
  reflexivity.
Defined.

(** X7. When [scheduleStream] never settles, [submit] leaves the loader
    on and nothing else changes: the modal, the events and the drafts are
    as before, no toast is shown and nothing is left unhandled. *)
Theorem submit_create_pending
        (Date_valueOf : JsTime -> Z) (env : Env) (w : World) o f :
  validateFields env = Resolved tt ->
  selectedEventId (state w) = EmptyString ->
  platformSettings_get (platformSettings (state w)) (selectedPlatform (state w)) = Some o ->
  service_scheduleStream env (selectedPlatform (state w)) = Some f ->
  f (time (state w)) o = Pending ->
  submit Date_valueOf env w
  = (Ok tt, mkWorld (set_isLoading true (state w)) (messages w) (unhandled w)).
Proof.
  intros Hv Hsel Ho Hf Hp.
  unfold submit, try_catch, bind, await, ret, showLoader, mutate, get_state. simpl.
  rewrite Hv. simpl. unfold isUpdateMode. simpl. rewrite Hsel. simpl.
  unfold detach, saveNewStream, try_catch, bind, get_state, getDefined. simpl.
  rewrite Ho. simpl. rewrite Hf. simpl. unfold await. rewrite Hp. reflexivity.
Qed.

Lemma submit_create_pending_witness :
  submit Sample.Date_valueOf
    (mkEnv Sample.ten_am 0 [youtube] (fun _ => true) Sample.ytOptions Sample.fbOptions
           (Resolved tt) (Resolved tt) (Resolved []) (Resolved tt) (Resolved [])
           (fun _ _ => Pending) (fun _ _ => Pending) (fun _ _ => Pending)
           (fun _ _ => Pending) (fun _ => EmptyString) (fun _ => Pending)
           (fun _ _ => Pending))
    (Sample.world (Sample.opened [] EmptyString youtube))
  = (Ok tt,
     mkWorld (set_isLoading true (Sample.opened [] EmptyString youtube)) [] []).
Proof.
  apply (submit_create_pending Sample.Date_valueOf _
           (Sample.world (Sample.opened [] EmptyString youtube))
           (YoutubeSettings (mkYtOptions EmptyString "Stream" None))
           (fun t o => promise_map YtVideo Pending));
    reflexivity.
Defined.

(** ** Submitting: witnesses of the update and of the caught failures *)

Lemma submit_update_youtube_witness :
  events (state (snd (submit Sample.Date_valueOf Sample.env_ok
    (Sample.world
       (Sample.opened [Sample.fbEvent "f" 0; Sample.ytEvent "a" Sample.midnight;
                       Sample.ytEvent "b" 0] "a" youtube)))))
  = [Sample.fbEvent "f" 0]
    ++ convertYTBroadcastToEvent Sample.Date_valueOf
         (Sample.broadcast "a" "ready" Sample.ten_am)
    :: [Sample.ytEvent "b" 0].
Proof.
  assert (S : selectedEventId
                (state (Sample.world
                   (Sample.opened [Sample.fbEvent "f" 0; Sample.ytEvent "a" Sample.midnight;
                                   Sample.ytEvent "b" 0] "a" youtube)))
              <> EmptyString) by discriminate.
  assert (B : forall y, In y [Sample.fbEvent "f" 0] ->
                        ev_id y <> yt_id (Sample.broadcast "a" "ready" Sample.ten_am)).
  { intros y [<-|[]]. discriminate. }
  destruct (submit_update_youtube Sample.Date_valueOf Sample.env_ok
              (Sample.world
                 (Sample.opened [Sample.fbEvent "f" 0; Sample.ytEvent "a" Sample.midnight;
                                 Sample.ytEvent "b" 0] "a" youtube))
              (mkYtOptions EmptyString "Stream" None)
              (Sample.broadcast "a" "ready" Sample.ten_am)
              [Sample.fbEvent "f" 0] (Sample.ytEvent "a" Sample.midnight)
              [Sample.ytEvent "b" 0]
              eq_refl S eq_refl eq_refl eq_refl eq_refl eq_refl B)
    as (_ & E & _).
  exact E.
Defined.

Lemma submit_create_rejected_witness :
  submit Sample.Date_valueOf Sample.env_rejecting
    (Sample.world (Sample.opened [] EmptyString facebook))
  = (Ok tt,
     mkWorld (Sample.opened [] EmptyString facebook) [facebook_window_message] []).
Proof.
  apply (submit_create_rejected Sample.Date_valueOf Sample.env_rejecting
           (Sample.world (Sample.opened [] EmptyString facebook))
           (FacebookSettings (mkFbOptions EmptyString "Live" "page" None))
           (fun t o => promise_map FbVideo (fb_scheduleStream Sample.env_rejecting t o))
           "rejected"%string);
    reflexivity.
Defined.

Lemma submit_update_facebook_rejected_witness :
  submit Sample.Date_valueOf Sample.env_rejecting
    (Sample.world (Sample.opened [Sample.fbEvent "f" Sample.ten_am] "f" facebook))
  = (Ok tt,
     mkWorld (Sample.opened [Sample.fbEvent "f" Sample.ten_am] "f" facebook)
             [facebook_window_message] []).
Proof.
  assert (S : selectedEventId
                (state (Sample.world
                   (Sample.opened [Sample.fbEvent "f" Sample.ten_am] "f" facebook)))
              <> EmptyString) by discriminate.
  apply (submit_update_facebook_rejected Sample.Date_valueOf Sample.env_rejecting
           (Sample.world (Sample.opened [Sample.fbEvent "f" Sample.ten_am] "f" facebook))
           (mkFbOptions EmptyString "Live" "page" None)
           (Sample.fbEvent "f" Sample.ten_am) (mkFacebookInfo "page" "p1")
           "rejected"%string eq_refl S eq_refl eq_refl eq_refl eq_refl eq_refl).
Defined.

(** ** Submitting on Facebook *)

(** X11. A successful update of a Facebook event replaces the first event
    that has the id of the updated video; the new event is tagged
    [facebook], is scheduled, and keeps the destination of the event
    that was selected.  The list keeps its length and the modal closes. *)
Theorem submit_update_facebook
        (Date_valueOf : JsTime -> Z) (env : Env) (w : World)
        o old info v before x after :
  validateFields env = Resolved tt ->
  selectedEventId (state w) <> EmptyString ->
  selectedPlatform (state w) = facebook ->
  ps_facebook (platformSettings (state w)) = Some o ->
  selectedEvent (state w) = Some old ->
  ev_facebook old = Some info ->
  updateLiveVideo env (selectedEventId (state w)) (FacebookSettings o) = Resolved v ->
  events (state w) = before ++ x :: after ->
  ev_id x = fb_id v ->
  (forall y, In y before -> ev_id y <> fb_id v) ->
  fst (submit Date_valueOf env w) = Ok tt
  /\ events (state (snd (submit Date_valueOf env w)))
     = before
       ++ mkEvent facebook (fb_id v)
            (Date_valueOf (js_or (planned_start_time v) (broadcast_start_time v)))
            (fb_title v) scheduled (Some info)
       :: after
  /\ length (events (state (snd (submit Date_valueOf env w)))) = length (events (state w))
  /\ isModalVisible (state (snd (submit Date_valueOf env w))) = false
  /\ isLoading (state (snd (submit Date_valueOf env w))) = false
  /\ messages (snd (submit Date_valueOf env w)) = messages w
  /\ unhandled (snd (submit Date_valueOf env w)) = unhandled w.
Proof.
  intros Hv Hsel Hp Ho Hold Hinfo Hu E Hx Hbefore.
  assert (U : isUpdateMode (set_isLoading true (state w)) = true).
  { unfold isUpdateMode. simpl. apply negb_true_iff, String.eqb_neq. exact Hsel. }
  assert (S : selectedEvent (set_isLoading true (state w)) = Some old) by exact Hold.
  pose proof (setEvent_present (fb_id v)
                (convertFBLiveVideoToEvent Date_valueOf (spread_video v info))
                (mkWorld (set_isLoading true (state w)) (messages w) (unhandled w))
                before x after E Hx Hbefore) as R.
  rewrite setEvent_run in R. simpl in R.
  unfold submit, try_catch, bind, await, ret, showLoader, mutate, get_state. simpl.
  rewrite Hv. simpl. rewrite U.
  unfold detach, saveExistingStream, try_catch, bind, get_state, getDefined,
    platformSettings_get. simpl.
  rewrite Hp, Ho. simpl. rewrite S. simpl. rewrite Hinfo. simpl.
  unfold await. rewrite Hu. simpl.
  unfold has_id in R. rewrite R.
  unfold convertFBLiveVideoToEvent, spread_video. simpl. destruct info; simpl.
  repeat split. rewrite E, !length_app. reflexivity.
Qed.

Lemma submit_update_facebook_witness :
  events (state (snd (submit Sample.Date_valueOf Sample.env_ok
    (Sample.world (Sample.opened [Sample.fbEvent "f" Sample.midnight] "f" facebook)))))
  = [mkEvent facebook "f" Sample.ten_am "Live" scheduled
             (Some (mkFacebookInfo "page" "p1"))].
Proof.
  assert (S : selectedEventId
                (state (Sample.world
                   (Sample.opened [Sample.fbEvent "f" Sample.midnight] "f" facebook)))
              <> EmptyString) by discriminate.
  assert (B : forall y : IStreamEvent, In y [] ->
                ev_id y <> fb_id (Sample.video "f" Sample.ten_am)) by (intros y []).
  exact (proj1 (proj2
    (submit_update_facebook Sample.Date_valueOf Sample.env_ok
       (Sample.world (Sample.opened [Sample.fbEvent "f" Sample.midnight] "f" facebook))
       (mkFbOptions EmptyString "Live" "page" None)
       (Sample.fbEvent "f" Sample.midnight) (mkFacebookInfo "page" "p1")
       (Sample.video "f" Sample.ten_am) [] (Sample.fbEvent "f" Sample.midnight) []
       eq_refl S eq_refl eq_refl eq_refl eq_refl eq_refl eq_refl eq_refl B))).
Defined.

Lemma In_splice {A} (start deleteCount : Z) (item : A) (arr : list A) :
  In item (splice start deleteCount item arr).
Proof. unfold splice. apply in_or_app. right. now left. Qed.

(** X12. A successful create on Facebook puts into the list an event
    tagged [facebook] with the id the platform gave, the destination type
    of the draft and the destination id that the Facebook service
    resolves from the draft; then the modal closes, the loader is
    cleared and the drafts are back to the defaults. *)
Theorem submit_create_facebook
        (Date_valueOf : JsTime -> Z) (env : Env) (w : World) o v :
  validateFields env = Resolved tt ->
  selectedEventId (state w) = EmptyString ->
  selectedPlatform (state w) = facebook ->
  ps_facebook (platformSettings (state w)) = Some o ->
  fb_scheduleStream env (time (state w)) (FacebookSettings o) = Resolved v ->
  fst (submit Date_valueOf env w) = Ok tt
  /\ In (mkEvent facebook (fb_id v)
           (Date_valueOf (js_or (planned_start_time v) (broadcast_start_time v)))
           (fb_title v) scheduled
           (Some (mkFacebookInfo (fbo_destinationType o) (getDestinationId env o))))
        (events (state (snd (submit Date_valueOf env w))))
  /\ isModalVisible (state (snd (submit Date_valueOf env w))) = false
  /\ isLoading (state (snd (submit Date_valueOf env w))) = false
  /\ selectedEventId (state (snd (submit Date_valueOf env w))) = EmptyString
  /\ platformSettings (state (snd (submit Date_valueOf env w)))
     = defaultPlatformSettings env
  /\ messages (snd (submit Date_valueOf env w)) = messages w
  /\ unhandled (snd (submit Date_valueOf env w)) = unhandled w.
Proof.
  intros Hv Hsel Hp Ho Hs.
  unfold submit, try_catch, bind, await, ret, showLoader, mutate, get_state. simpl.
  rewrite Hv. simpl. unfold isUpdateMode. simpl. rewrite Hsel. simpl.
  unfold detach, saveNewStream, try_catch, bind, get_state, getDefined,
    platformSettings_get. simpl.
  rewrite Hp, Ho. simpl. unfold await. rewrite Hs. simpl.
  unfold fbSettings, bind, get_state, getDefined. simpl. rewrite Ho. simpl.
  repeat split. apply In_splice.
Qed.

Lemma submit_create_facebook_witness :
  In (mkEvent facebook "new" Sample.ten_am "Live" scheduled
              (Some (mkFacebookInfo "page" "p1")))
     (events (state (snd (submit Sample.Date_valueOf Sample.env_ok
        (Sample.world (Sample.opened [] EmptyString facebook)))))).
Proof.
  exact (proj1 (proj2
    (submit_create_facebook Sample.Date_valueOf Sample.env_ok
       (Sample.world (Sample.opened [] EmptyString facebook))
       (mkFbOptions EmptyString "Live" "page" None)
       (Sample.video "new" Sample.ten_am)
       eq_refl eq_refl eq_refl eq_refl eq_refl))).
Defined.

(** ** Loading: gating and failure *)

(** The two loaders read the services and leave the world alone. *)
Lemma loadYTBEvents_pure (env : Env) (w w0 : World) :
  loadYTBEvents env w = (fst (loadYTBEvents env w0), w).
Proof.
  unfold loadYTBEvents.
  destruct (existsb (platform_eqb youtube) (platforms env)); [|reflexivity].
  unfold bind, await.
  destruct (yt_prepopulateInfo env); try reflexivity.
  destruct (fetchBroadcasts env); reflexivity.
Qed.

Lemma loadFbEvents_pure (env : Env) (w w0 : World) :
  loadFbEvents env w = (fst (loadFbEvents env w0), w).
Proof.
  unfold loadFbEvents.
  destruct (existsb (platform_eqb facebook) (platforms env)); [|reflexivity].
  unfold bind, await.
  destruct (fb_prepopulateInfo env); try reflexivity.
  destruct (fetchAllVideos env); reflexivity.
Qed.

Lemma platforms_youtube_absent (env : Env) :
  ~ In youtube (linkedPlatforms env) \/ supports_stream_schedule env youtube = false ->
  existsb (platform_eqb youtube) (platforms env) = false.
Proof.
  intros H. destruct (existsb _ _) eqn:E; [|reflexivity].
  apply existsb_exists in E. destruct E as (p & Hin & Hp).
  apply platform_eqb_eq in Hp. subst p.
  unfold platforms in Hin. apply filter_In in Hin. destruct Hin as [Hl Hs].
  destruct H as [H|H]; [contradiction|congruence].
Qed.

(** X13. When YouTube is not linked, or does not support scheduling,
    the YouTube service is not asked: whatever it would answer, a load
    whose Facebook loader resolves to [fb] ends with exactly the
    normalized Facebook events and the loaded flag set. *)
Theorem loadEvents_without_youtube
        (Date_valueOf : JsTime -> Z) (env : Env) (w : World)
        (fb : list IFacebookLiveVideoExtended) :
  ~ In youtube (linkedPlatforms env) \/ supports_stream_schedule env youtube = false ->
  (forall w', loadFbEvents env w' = (Ok fb, w')) ->
  fst (loadEvents Date_valueOf env w) = Ok tt
  /\ events (state (snd (loadEvents Date_valueOf env w)))
     = map (convertFBLiveVideoToEvent Date_valueOf) fb
  /\ isEventsLoaded (state (snd (loadEvents Date_valueOf env w))) = true.
Proof.
  intros Hno Hfb.
  assert (Hyt : forall w', loadYTBEvents env w' = (Ok [], w')).
  { intros w'. unfold loadYTBEvents.
    now rewrite (platforms_youtube_absent env Hno). }
  rewrite (loadEvents_run Date_valueOf env w [] fb Hyt Hfb). repeat split.
Qed.

Lemma loadEvents_without_youtube_witness :
  events (state (snd (loadEvents Sample.Date_valueOf SampleEdit.env_facebook_only
                        (Sample.world (Sample.closed [] facebook 0)))))
  = map (convertFBLiveVideoToEvent Sample.Date_valueOf)
        [Sample.videoExt "f1" Sample.ten_am].
Proof.
  assert (N : ~ In youtube (linkedPlatforms SampleEdit.env_facebook_only)
              \/ supports_stream_schedule SampleEdit.env_facebook_only youtube = false)
    by (right; reflexivity).
  exact (proj1 (proj2
    (loadEvents_without_youtube Sample.Date_valueOf SampleEdit.env_facebook_only
       (Sample.world (Sample.closed [] facebook 0))
       [Sample.videoExt "f1" Sample.ten_am] N (fun w' => eq_refl)))).
Defined.

(** X14. When one of the two loaders rejects and the other does not,
    [loadEvents] rejects with it after the reset: the list is empty, the drafts are the defaults,
    [isEventsLoaded] is what it was and no toast is shown.  [init] drops
    that rejection, which stays unhandled. *)
Theorem loadEvents_rejected
        (Date_valueOf : JsTime -> Z) (env : Env) (w : World) (e : Error) :
  (fst (loadFbEvents env w) = Throw e
   /\ forall e', fst (loadYTBEvents env w) <> Throw e')
  \/ (fst (loadYTBEvents env w) = Throw e
      /\ forall e', fst (loadFbEvents env w) <> Throw e') ->
  loadEvents Date_valueOf env w
  = (Throw e,
     mkWorld (set_platformSettings (defaultPlatformSettings env)
                (set_events [] (state w)))
             (messages w) (unhandled w))
  /\ init Date_valueOf env w
     = (Ok tt,
        mkWorld (set_platformSettings (defaultPlatformSettings env)
                   (set_events [] (state w)))
                (messages w) (unhandled w ++ [e])).
Proof.
  intros H.
  assert (L : loadEvents Date_valueOf env w
              = (Throw e,
                 mkWorld (set_platformSettings (defaultPlatformSettings env)
                            (set_events [] (state w)))
                         (messages w) (unhandled w))).
  { unfold loadEvents, reset, bind, mutate, promise_all. simpl.
    set (w1 := mkWorld _ _ _).
    rewrite (loadFbEvents_pure env w1 w), (loadYTBEvents_pure env w1 w).
    destruct H as [[Hf _]|[Hy Hf]].
    - rewrite Hf. destruct (fst (loadYTBEvents env w)); reflexivity.
    - rewrite Hy. destruct (fst (loadFbEvents env w)) as [a|e'|]; try reflexivity.
      exfalso. now apply (Hf e'). }
  split; [exact L|].
  unfold init, detach. rewrite L. reflexivity.
Qed.

Lemma loadEvents_rejected_witness :
  fst (loadEvents Sample.Date_valueOf
         (mkEnv 0 0 [youtube] (fun _ => true) Sample.ytOptions Sample.fbOptions
                (Resolved tt) (Resolved tt) (Rejected "down"%string) (Resolved tt)
                (Resolved []) (fun _ _ => Pending) (fun _ _ => Pending)
                (fun _ _ => Pending) (fun _ _ => Pending) (fun _ => EmptyString)
                (fun _ => Pending) (fun _ _ => Pending))
         (Sample.world (Sample.closed [Sample.ytEvent "a" 0] youtube 0)))
  = Throw (PlatformError "down"%string).
Proof.
  assert (H : forall e', Ok [] <> @Throw (list IFacebookLiveVideoExtended) e')
    by (intros e'; discriminate).
  exact (f_equal fst (proj1
    (loadEvents_rejected Sample.Date_valueOf
       (mkEnv 0 0 [youtube] (fun _ => true) Sample.ytOptions Sample.fbOptions
              (Resolved tt) (Resolved tt) (Rejected "down"%string) (Resolved tt)
              (Resolved []) (fun _ _ => Pending) (fun _ _ => Pending)
              (fun _ _ => Pending) (fun _ _ => Pending) (fun _ => EmptyString)
              (fun _ => Pending) (fun _ _ => Pending))
       (Sample.world (Sample.closed [Sample.ytEvent "a" 0] youtube 0))
       (PlatformError "down"%string)
       (or_intror (conj eq_refl H))))).
Defined.

(** ** An invariant of the list of events *)

Section Preservation.

Variable P : World -> Prop.

(** [P] looks at the module state only. *)
Hypothesis P_state : forall w w', state w = state w' -> P w -> P w'.

Lemma preserves_ret {A} (a : A) : preserves P (ret a).
Proof. intros w H. exact H. Qed.

Lemma preserves_throw {A} (e : Error) : preserves P (@throw A e).
Proof. intros w H. exact H. Qed.

Lemma preserves_get_state : preserves P get_state.
Proof. intros w H. exact H. Qed.

Lemma preserves_await {A} (p : Promise A) : preserves P (await p).
Proof. intros w H. unfold await. now destruct p. Qed.

Lemma preserves_getDefined {A} (v : option A) : preserves P (getDefined v).
Proof. intros w H. now destruct v. Qed.

Lemma preserves_message_error (text : string) : preserves P (message_error text).
Proof. intros w H. now apply (P_state w). Qed.

Lemma preserves_bind {A B} (m : M A) (k : A -> M B) :
  preserves P m -> (forall a, preserves P (k a)) -> preserves P (bind m k).
Proof.
  intros Hm Hk w H. specialize (Hm w H). unfold bind.
  destruct (m w) as [[a|e|] w']; simpl in *; auto. now apply Hk.
Qed.

Lemma preserves_try_catch {A} (body : M A) (handler : Error -> M A) :
  preserves P body -> (forall e, preserves P (handler e)) ->
  preserves P (try_catch body handler).
Proof.
  intros Hb Hh w H. specialize (Hb w H). unfold try_catch.
  destruct (body w) as [[a|e|] w']; simpl in *; auto. now apply Hh.
Qed.

Lemma preserves_detach (m : M unit) : preserves P m -> preserves P (detach m).
Proof.
  intros Hm w H. specialize (Hm w H). unfold detach.
  destruct (m w) as [[a|e|] w']; simpl in *; auto.
  now apply (P_state w').
Qed.

Lemma preserves_promise_all {A B} (a : M A) (b : M B) :
  preserves P a -> preserves P b -> preserves P (promise_all a b).
Proof.
  intros Ha Hb w H. specialize (Ha w H). unfold promise_all.
  destruct (a w) as [ra w1]. simpl in Ha. specialize (Hb w1 Ha).
  destruct (b w1) as [rb w2]. simpl in Hb.
  destruct ra, rb; exact Hb.
Qed.

End Preservation.

Lemma events_ok_state (w w' : World) : state w = state w' -> events_ok w -> events_ok w'.
Proof. unfold events_ok. now intros ->. Qed.

Lemma preserves_mutate_events (f : SchedulerState -> SchedulerState) :
  (forall s, Forall event_ok (events s) -> Forall event_ok (events (f s))) ->
  preserves events_ok (mutate f).
Proof. intros Hf w H. apply Hf. exact H. Qed.

Lemma Forall_firstn {A} (Q : A -> Prop) (n : nat) (l : list A) :
  Forall Q l -> Forall Q (firstn n l).
Proof.
  revert l. induction n as [|n IH]; intros l H; simpl; [constructor|].
  destruct H; constructor; auto.
Qed.

Lemma Forall_skipn {A} (Q : A -> Prop) (n : nat) (l : list A) :
  Forall Q l -> Forall Q (skipn n l).
Proof.
  revert l. induction n as [|n IH]; intros l H; simpl; [exact H|].
  destruct H; [constructor|auto].
Qed.

Lemma Forall_splice {A} (Q : A -> Prop) start deleteCount (item : A) (arr : list A) :
  Q item -> Forall Q arr -> Forall Q (splice start deleteCount item arr).
Proof.
  intros Hi Ha. unfold splice. apply Forall_app. split.
  - now apply Forall_firstn.
  - constructor; [exact Hi|now apply Forall_skipn].
Qed.

Lemma Forall_filter {A} (Q : A -> Prop) (p : A -> bool) (l : list A) :
  Forall Q l -> Forall Q (filter p l).
Proof.
  intros H. apply Forall_forall. intros x Hx. apply filter_In in Hx.
  rewrite Forall_forall in H. now apply H.
Qed.

Lemma convertYT_ok (Date_valueOf : JsTime -> Z) b :
  event_ok (convertYTBroadcastToEvent Date_valueOf b).
Proof. now left. Qed.

Lemma convertFB_ok (Date_valueOf : JsTime -> Z) v :
  event_ok (convertFBLiveVideoToEvent Date_valueOf v).
Proof. right. split; [reflexivity|discriminate]. Qed.

(** Steps that keep the invariant. *)
Ltac keep_events :=
  repeat first
    [ apply preserves_ret
    | apply preserves_throw
    | apply preserves_get_state
    | apply preserves_await
    | apply preserves_getDefined
    | apply (preserves_message_error events_ok events_ok_state)
    | apply (preserves_bind events_ok); [|intros ?]
    | apply (preserves_try_catch events_ok); [|intros ?]
    | apply (preserves_detach events_ok events_ok_state)
    | apply (preserves_promise_all events_ok)
    | apply preserves_mutate_events; intros ? ?; simpl;
      first [ assumption
            | apply Forall_splice; [first [apply convertYT_ok|apply convertFB_ok]|assumption]
            | apply Forall_filter; assumption
            | constructor ]
    | match goal with
      | |- preserves _ (if ?b then _ else _) => destruct b
      | |- preserves _ (match ?x with _ => _ end) => destruct x
      end ].

Lemma closeModal_keeps (env : Env) : preserves events_ok (closeModal env).
Proof. unfold closeModal. keep_events. Qed.

Lemma setTime_keeps (t : Z) : preserves events_ok (setTime t).
Proof. unfold setTime. keep_events. Qed.

Lemma handleError_keeps (e : Error) : preserves events_ok (handleError e).
Proof. unfold handleError, hideLoader. keep_events. Qed.

Lemma saveExistingStream_keeps (Date_valueOf : JsTime -> Z) (env : Env) :
  preserves events_ok (saveExistingStream Date_valueOf env).
Proof.
  unfold saveExistingStream, setEvent. keep_events.
Qed.

Lemma saveNewStream_keeps (Date_valueOf : JsTime -> Z) (env : Env) :
  preserves events_ok (saveNewStream Date_valueOf env).
Proof.
  unfold saveNewStream, setEvent, fbSettings.
  apply (preserves_bind events_ok); [keep_events|intros s].
  apply (preserves_bind events_ok); [keep_events|intros streamSettings].
  apply (preserves_bind events_ok); [keep_events|intros scheduleStream].
  apply (preserves_bind events_ok);
    [keep_events; apply handleError_keeps|intros [video|]]; [|keep_events].
  destruct video as [b|v]; unfold bind at 1.
  - intros w H. unfold events_ok. simpl.
    apply Forall_splice; [apply convertYT_ok|exact H].
  - intros w H. unfold events_ok, bind, get_state, getDefined. simpl.
    destruct (ps_facebook (platformSettings (state w))); simpl; [|exact H].
    apply Forall_splice; [apply convertFB_ok|exact H].
Qed.

Lemma remove_keeps (env : Env) : preserves events_ok (remove env).
Proof.
  unfold remove, REMOVE_EVENT, showLoader, detach_promise. keep_events.
Qed.

Lemma submit_keeps (Date_valueOf : JsTime -> Z) (env : Env) :
  preserves events_ok (submit Date_valueOf env).
Proof.
  unfold submit, showLoader.
  apply (preserves_bind events_ok); [keep_events|intros valid].
  destruct valid; [|keep_events].
  apply (preserves_bind events_ok); [keep_events|intros _].
  apply (preserves_bind events_ok); [keep_events|intros s].
  destruct (isUpdateMode s); apply (preserves_detach events_ok events_ok_state).
  - apply saveExistingStream_keeps.
  - apply saveNewStream_keeps.
Qed.

Lemma showNewEventModal_keeps (env : Env) platform selectedTime :
  preserves events_ok (showNewEventModal env platform selectedTime).
Proof.
  unfold showNewEventModal. keep_events.
Qed.

Lemma showEditEventModal_keeps (svc : EditServices) eventId :
  preserves events_ok (showEditEventModal svc eventId).
Proof. unfold showEditEventModal, SHOW_EDIT_EVENT_MODAL. keep_events. Qed.

(** X15. However a load ends, the list it leaves holds only events as
    the normalizers make them: each one is a YouTube event, or a Facebook
    event that carries its destination. *)
Theorem loadEvents_establishes_events_ok
        (Date_valueOf : JsTime -> Z) (env : Env) (w : World) :
  events_ok (snd (loadEvents Date_valueOf env w)).
Proof.
  unfold loadEvents, reset, bind at 1 2, mutate. simpl.
  set (w1 := mkWorld _ _ _).
  assert (H1 : events_ok w1) by constructor.
  revert H1. generalize w1. clear w1.
  change (preserves events_ok
            (r <- promise_all (loadFbEvents env) (loadYTBEvents env);;
             setEvents
               (forEach_push (convertFBLiveVideoToEvent Date_valueOf) (fst r)
                  (forEach_push (convertYTBroadcastToEvent Date_valueOf) (snd r) [])))).
  apply (preserves_bind events_ok).
  - apply (preserves_promise_all events_ok).
    + intros w' H. now rewrite (loadFbEvents_pure env w' w').
    + intros w' H. now rewrite (loadYTBEvents_pure env w' w').
  - intros [fb yt]. unfold setEvents. simpl.
    apply (preserves_bind events_ok); [keep_events|intros _].
    apply preserves_mutate_events. intros s _. simpl.
    rewrite !forEach_push_map. simpl. apply Forall_app. split.
    + apply Forall_forall. intros x Hx. apply in_map_iff in Hx.
      destruct Hx as (b & <- & _). apply convertYT_ok.
    + apply Forall_forall. intros x Hx. apply in_map_iff in Hx.
      destruct Hx as (b & <- & _). apply convertFB_ok.
Qed.

(** X16. Every command keeps that property of the list, however it ends:
    submitting (update or create, accepted or rejected), removing,
    opening the modal for a new or an existing event, closing it and
    setting the time. *)
Theorem commands_keep_events_ok
        (Date_valueOf : JsTime -> Z) (env : Env) (svc : EditServices) (w : World) :
  events_ok w ->
  events_ok (snd (submit Date_valueOf env w))
  /\ events_ok (snd (remove env w))
  /\ (forall platform selectedTime,
         events_ok (snd (showNewEventModal env platform selectedTime w)))
  /\ (forall eventId, events_ok (snd (showEditEventModal svc eventId w)))
  /\ events_ok (snd (closeModal env w))
  /\ (forall t, events_ok (snd (setTime t w))).
Proof.
  intros H. repeat split; intros.
  - now apply submit_keeps.
  - now apply remove_keeps.
  - now apply showNewEventModal_keeps.
  - now apply showEditEventModal_keeps.
  - now apply closeModal_keeps.
  - now apply setTime_keeps.
Qed.

Lemma commands_keep_events_ok_witness :
  events_ok (snd (submit Sample.Date_valueOf Sample.env_ok
                    (Sample.world
                       (Sample.opened [Sample.ytEvent "a" 0; Sample.fbEvent "f" 0]
                                      "f" facebook)))).
Proof.
  assert (H : events_ok
                (Sample.world
                   (Sample.opened [Sample.ytEvent "a" 0; Sample.fbEvent "f" 0]
                                  "f" facebook))).
  { unfold events_ok. simpl. constructor; [now left|].
    constructor; [right; split; [reflexivity|discriminate]|constructor]. }
  exact (proj1 (commands_keep_events_ok Sample.Date_valueOf Sample.env_ok
                  SampleEdit.services _ H)).
Defined.

(** ** Opening the modal on an existing event *)

Lemma showEditEventModal_run (svc : EditServices) (eventId : string) (w : World) :
  showEditEventModal svc eventId w
  = match array_find (fun ev => String.eqb eventId (ev_id ev)) (events (state w)) with
    | None => (Throw AssertionError, w)
    | Some event =>
        if platform_eqb (ev_platform event) youtube then
          match fetchStartStreamOptionsForBroadcast svc (ev_id event) with
          | Resolved o =>
              (Ok tt,
               mkWorld (edited (state w) event (YoutubeSettings o))
                       (messages w) (unhandled w))
          | Rejected e => (Throw (PlatformError e), w)
          | Pending => (Awaiting, w)
          end
        else
          match ev_facebook event with
          | None => (Throw AssertionError, w)
          | Some d =>
              match fetchStartStreamOptionsForVideo svc (ev_id event)
                      (destinationType d) (destinationId d) with
              | Resolved o =>
                  (Ok tt,
                   mkWorld (edited (state w) event (FacebookSettings o))
                           (messages w) (unhandled w))
              | Rejected e => (Throw (PlatformError e), w)
              | Pending => (Awaiting, w)
              end
          end
    end.
Proof.
  unfold showEditEventModal, bind, get_state, getDefined. simpl.
  destruct (array_find _ _) as [event|]; [|reflexivity]. simpl.
  destruct (platform_eqb (ev_platform event) youtube).
  - unfold await. destruct (fetchStartStreamOptionsForBroadcast svc (ev_id event));
      reflexivity.
  - destruct (ev_facebook event) as [d|]; [|reflexivity]. simpl.
    unfold await. destruct (fetchStartStreamOptionsForVideo svc _ _ _); reflexivity.
Qed.

(** X17. [showEditEventModal] is all or nothing: when it does not return
    (no event has the id, a Facebook event lacks its destination, the
    fetch of the settings is rejected or never settles), the state is
    untouched and no toast is shown. *)
Theorem showEditEventModal_all_or_nothing
        (svc : EditServices) (eventId : string) (w : World) :
  fst (showEditEventModal svc eventId w) <> Ok tt ->
  snd (showEditEventModal svc eventId w) = w.
Proof.
  rewrite showEditEventModal_run.
  destruct (array_find _ _) as [event|]; [|reflexivity].
  destruct (platform_eqb (ev_platform event) youtube).
  - destruct (fetchStartStreamOptionsForBroadcast svc (ev_id event));
      simpl; intros H; congruence.
  - destruct (ev_facebook event) as [d|]; [|reflexivity].
    destruct (fetchStartStreamOptionsForVideo svc _ _ _); simpl; intros H; congruence.
Qed.

Lemma showEditEventModal_all_or_nothing_witness :
  snd (showEditEventModal SampleEdit.services "missing"
         (Sample.world (Sample.closed [Sample.ytEvent "a" 0] youtube 0)))
  = Sample.world (Sample.closed [Sample.ytEvent "a" 0] youtube 0).
Proof.
  apply (showEditEventModal_all_or_nothing SampleEdit.services "missing"
           (Sample.world (Sample.closed [Sample.ytEvent "a" 0] youtube 0))).
  discriminate.
Defined.

(** X18. On a list made by the normalizers, with both fetches resolving,
    the edit modal opens for every listed event.  It opens on the first
    event that has the id: that event is the selected one, its platform
    and date become the platform and the time of the form, the list is
    untouched, the footer shows Save and not Schedule, it offers Delete
    exactly when that event is scheduled, and the platform selector is
    hidden unless the id is the empty string. *)
Theorem showEditEventModal_opens
        (svc : EditServices) (w : World) (ev : IStreamEvent) :
  events_ok w ->
  In ev (events (state w)) ->
  (forall id, exists o, fetchStartStreamOptionsForBroadcast svc id = Resolved o) ->
  (forall id t d, exists o, fetchStartStreamOptionsForVideo svc id t d = Resolved o) ->
  exists first,
    selectedEvent (state (snd (showEditEventModal svc (ev_id ev) w))) = Some first
    /\ In first (events (state w))
    /\ ev_id first = ev_id ev
    /\ fst (showEditEventModal svc (ev_id ev) w) = Ok tt
    /\ selectedEventId (state (snd (showEditEventModal svc (ev_id ev) w))) = ev_id ev
    /\ selectedPlatform (state (snd (showEditEventModal svc (ev_id ev) w)))
       = ev_platform first
    /\ time (state (snd (showEditEventModal svc (ev_id ev) w))) = ev_date first
    /\ isModalVisible (state (snd (showEditEventModal svc (ev_id ev) w))) = true
    /\ events (state (snd (showEditEventModal svc (ev_id ev) w))) = events (state w)
    /\ shouldShowSave (state (snd (showEditEventModal svc (ev_id ev) w))) = true
    /\ shouldShowSchedule (state (snd (showEditEventModal svc (ev_id ev) w))) = false
    /\ shouldShowRemove (state (snd (showEditEventModal svc (ev_id ev) w)))
       = status_eqb (ev_status first) scheduled
    /\ canChangePlatform (state (snd (showEditEventModal svc (ev_id ev) w)))
       = String.eqb (ev_id ev) EmptyString.
Proof.
  intros Hok Hin Hyt Hfb.
  destruct (array_find (fun x => String.eqb (ev_id ev) (ev_id x)) (events (state w)))
    as [first|] eqn:F.
  2:{ exfalso. apply (find_none _ _ F) in Hin. simpl in Hin.
      now rewrite String.eqb_refl in Hin. }
  pose proof (find_some _ _ F) as [Hfin Hfid]. apply String.eqb_eq in Hfid.
  assert (Sel : forall s', events s' = events (state w) ->
                           selectedEventId s' = ev_id first ->
                           selectedEvent s' = Some first).
  { intros s' He Hs. unfold selectedEvent. rewrite He, Hs, <- Hfid. exact F. }
  exists first.
  rewrite showEditEventModal_run, F.
  assert (Hfok : event_ok first).
  { unfold events_ok in Hok. rewrite Forall_forall in Hok. now apply Hok. }
  destruct Hfok as [Py|[Pf Pd]].
  - rewrite Py. simpl.
    destruct (Hyt (ev_id first)) as [o ->]. simpl.
    unfold shouldShowSave, shouldShowSchedule, shouldShowRemove, canChangePlatform,
      isUpdateMode.
    rewrite (Sel (edited (state w) first (YoutubeSettings o)) eq_refl eq_refl).
    simpl. rewrite negb_involutive, Hfid. repeat split; auto.
  - rewrite Pf. simpl.
    destruct (ev_facebook first) as [d|]; [|congruence].
    destruct (Hfb (ev_id first) (destinationType d) (destinationId d)) as [o ->]. simpl.
    unfold shouldShowSave, shouldShowSchedule, shouldShowRemove, canChangePlatform,
      isUpdateMode.
    rewrite (Sel (edited (state w) first (FacebookSettings o)) eq_refl eq_refl).
    simpl. rewrite negb_involutive, Hfid. repeat split; auto.
Qed.

Lemma showEditEventModal_opens_witness :
  exists first,
    selectedEvent (state (snd (showEditEventModal SampleEdit.services "f"
       (Sample.world (Sample.closed [Sample.ytEvent "a" 0; Sample.fbEvent "f" 5]
                                    youtube 0)))))
    = Some first
    /\ ev_id first = "f"%string.
Proof.
  assert (H : events_ok
                (Sample.world (Sample.closed [Sample.ytEvent "a" 0; Sample.fbEvent "f" 5]
                                             youtube 0))).
  { unfold events_ok. simpl. constructor; [now left|].
    constructor; [right; split; [reflexivity|discriminate]|constructor]. }
  destruct (showEditEventModal_opens SampleEdit.services
              (Sample.world (Sample.closed [Sample.ytEvent "a" 0; Sample.fbEvent "f" 5]
                                           youtube 0))
              (Sample.fbEvent "f" 5) H (or_intror (or_introl eq_refl))
              (fun id => ex_intro _ _ eq_refl)
              (fun id t d => ex_intro _ _ eq_refl))
    as (first & S & _ & I & _).
  exists first. split; [exact S|exact I].
Defined.

(** X19. Once the edit modal has opened for an id, [remove] goes
    through: it returns, no event with that id is left in the list, the
    other events stay, and the modal is closed. *)
Theorem remove_after_showEditEventModal
        (svc : EditServices) (env : Env) (eventId : string) (w : World) :
  fst (showEditEventModal svc eventId w) = Ok tt ->
  fst (remove env (snd (showEditEventModal svc eventId w))) = Ok tt
  /\ events (state (snd (remove env (snd (showEditEventModal svc eventId w)))))
     = filter (other_id eventId) (events (state w))
  /\ isModalVisible (state (snd (remove env (snd (showEditEventModal svc eventId w)))))
     = false
  /\ isUpdateMode (state (snd (remove env (snd (showEditEventModal svc eventId w)))))
     = false.
Proof.
  rewrite showEditEventModal_run.
  destruct (array_find (fun x => String.eqb eventId (ev_id x)) (events (state w)))
    as [event|] eqn:F; [|discriminate].
  pose proof (find_some _ _ F) as [_ Hid]. apply String.eqb_eq in Hid.
  assert (Sel : forall o, selectedEvent (edited (state w) event o) = Some event).
  { intros o. unfold selectedEvent. simpl. rewrite <- Hid. exact F. }
  destruct (platform_eqb (ev_platform event) youtube) eqn:P.
  - destruct (fetchStartStreamOptionsForBroadcast svc (ev_id event)) as [|o|];
      try discriminate.
    intros _. simpl snd. rewrite remove_run. simpl. rewrite P. simpl.
    rewrite <- Hid. repeat split.
  - destruct (ev_facebook event) as [d|] eqn:D; [|discriminate].
    destruct (fetchStartStreamOptionsForVideo svc _ _ _) as [|o|]; try discriminate.
    intros _. simpl snd. rewrite remove_run. simpl state.
    rewrite (Sel (FacebookSettings o)). simpl. rewrite P, D. simpl.
    rewrite <- Hid. repeat split.
Qed.

Lemma remove_after_showEditEventModal_witness :
  events (state (snd (remove Sample.env_rejecting
    (snd (showEditEventModal SampleEdit.services "f"
            (Sample.world (Sample.closed [Sample.ytEvent "a" 0; Sample.fbEvent "f" 5]
                                         youtube 0)))))))
  = filter (other_id "f") [Sample.ytEvent "a" 0; Sample.fbEvent "f" 5].
Proof.
  exact (proj1 (proj2
    (remove_after_showEditEventModal SampleEdit.services Sample.env_rejecting "f"
       (Sample.world (Sample.closed [Sample.ytEvent "a" 0; Sample.fbEvent "f" 5]
                                    youtube 0))
       eq_refl))).
Defined.

(** ** Removing: the remote call *)

(** X20. On YouTube, when the remote delete is rejected, the events of
    the selected id are gone from the list all the same, the modal is
    closed, no toast is shown and the rejection is left unhandled. *)
Theorem remove_youtube_rejected (env : Env) (w : World) (e : IStreamError) :
  selectedPlatform (state w) = youtube ->
  removeBroadcast env (selectedEventId (state w)) = Rejected e ->
  remove env w
  = (Ok tt,
     mkWorld
       (mkState false (isEventsLoaded (state w))
                (filter (other_id (selectedEventId (state w))) (events (state w)))
                false EmptyString (time (state w)) youtube
                (defaultPlatformSettings env))
       (messages w)
       (unhandled w ++ [PlatformError e])).
Proof.
  intros Hp Hr. rewrite remove_run, Hp, Hr. reflexivity.
Qed.

Lemma remove_youtube_rejected_witness :
  remove Sample.env_rejecting
    (Sample.world (Sample.opened [Sample.ytEvent "a" 0; Sample.ytEvent "b" 0] "a" youtube))
  = (Ok tt,
     mkWorld (Sample.closed [Sample.ytEvent "b" 0] youtube Sample.ten_am) []
             [PlatformError "rejected"%string]).
Proof.
  apply (remove_youtube_rejected Sample.env_rejecting
           (Sample.world
              (Sample.opened [Sample.ytEvent "a" 0; Sample.ytEvent "b" 0] "a" youtube))
           "rejected"%string); reflexivity.
Defined.

(** X21. Whatever the state and the services, [remove] shows no toast. *)
Theorem remove_shows_no_toast (env : Env) (w : World) :
  messages (snd (remove env w)) = messages w.
Proof.
  rewrite remove_run.
  destruct (platform_eqb (selectedPlatform (state w)) youtube); [reflexivity|].
  destruct (selectedEvent (state w)) as [ev|]; [|reflexivity].
  destruct (ev_facebook ev); reflexivity.
Qed.

(** ** The day cells: order and days *)

(** X22. A day cell is a rearrangement in ascending order of time of
    the events strictly inside the day: none is lost and none is
    repeated. *)
Theorem dateCellRender_sorted_permutation utcOffset evs date :
  Sorted by_date (dateCellRender utcOffset evs date)
  /\ Permutation (dateCellRender utcOffset evs date)
       (filter (fun ev => (startOfDay utcOffset date <? ev_date ev)
                          && (ev_date ev <? endOfDay utcOffset date)) evs).
Proof.
  split; [apply sort_by_date_sorted|].
  unfold dateCellRender, isBetween. apply sort_by_date_perm.
Qed.

Lemma insert_by_date_same_time ev l t :
  filter (fun x => ev_date x =? t) (insert_by_date ev l)
  = filter (fun x => ev_date x =? t) (ev :: l).
Proof.
  induction l as [|x l IH]; simpl; [reflexivity|].
  destruct (ev_date ev - ev_date x <=? 0) eqn:C; [reflexivity|].
  apply Z.leb_gt in C. simpl. rewrite IH. simpl.
  destruct (ev_date ev =? t) eqn:E1; destruct (ev_date x =? t) eqn:E2; try reflexivity.
  apply Z.eqb_eq in E1, E2. lia.
Qed.

Lemma sort_by_date_same_time l t :
  filter (fun x => ev_date x =? t) (sort_by_date l)
  = filter (fun x => ev_date x =? t) l.
Proof.
  induction l as [|x l IH]; simpl; [reflexivity|].
  rewrite insert_by_date_same_time. simpl. now rewrite IH.
Qed.

(** X23. The order of a cell is stable: the events of one and the same
    time appear in the cell in the order they have in the list. *)
Theorem dateCellRender_stable utcOffset evs date t :
  filter (fun ev => ev_date ev =? t) (dateCellRender utcOffset evs date)
  = filter (fun ev => (ev_date ev =? t)
                      && isBetween t (startOfDay utcOffset date) (endOfDay utcOffset date))
           evs.
Proof.
  unfold dateCellRender. rewrite sort_by_date_same_time.
  induction evs as [|x l IH]; simpl; [reflexivity|].
  destruct (ev_date x =? t) eqn:E.
  - apply Z.eqb_eq in E. rewrite E.
    destruct (isBetween t _ _); simpl; rewrite ?E, ?Z.eqb_refl, IH; reflexivity.
  - destruct (isBetween (ev_date x) _ _); simpl; rewrite ?E; exact IH.
Qed.

(** The cell of the fixed-offset days is the general one at their bounds. *)
Lemma dateCellRender_in_fixed_offset utcOffset evs date :
  dateCellRender utcOffset evs date
  = dateCellRender_in (startOfDay utcOffset) (endOfDay utcOffset) evs date.
Proof. reflexivity. Qed.

(** The days of a fixed offset are calendar days. *)
Lemma local_days_fixed_offset utcOffset :
  local_days (startOfDay utcOffset) (endOfDay utcOffset).
Proof.
  intros t date H. apply onSameDay_bounds in H.
  unfold onSameDay in H. apply Z.eqb_eq in H.
  split; [exact H|]. unfold endOfDay. now rewrite H.
Qed.

Lemma dateCellRender_in_In startOf endOf evs date ev :
  In ev (dateCellRender_in startOf endOf evs date)
  <-> In ev evs /\ startOf date < ev_date ev < endOf date.
Proof.
  unfold dateCellRender_in. split.
  - intros H. apply (Permutation_in _ (sort_by_date_perm _)) in H.
    apply filter_In in H. destruct H as [Hin Hb].
    unfold isBetween in Hb. apply andb_true_iff in Hb.
    rewrite !Z.ltb_lt in Hb. tauto.
  - intros [Hin Hb].
    apply (Permutation_in _ (Permutation_sym (sort_by_date_perm _))).
    apply filter_In. split; [exact Hin|].
    unfold isBetween. apply andb_true_iff. rewrite !Z.ltb_lt. tauto.
Qed.

(** X24. An event shows in the cells of one day only.  Whatever the zone
    and its changes of offset, as long as the bounds that the runtime
    gives are those of calendar days: two dates whose cells share an
    event have the same start and the same end of day, and their cells
    are equal. *)
Theorem dateCellRender_one_day (startOf endOf : Z -> Z) evs d1 d2 ev :
  local_days startOf endOf ->
  In ev (dateCellRender_in startOf endOf evs d1) ->
  In ev (dateCellRender_in startOf endOf evs d2) ->
  startOf d1 = startOf d2
  /\ endOf d1 = endOf d2
  /\ dateCellRender_in startOf endOf evs d1 = dateCellRender_in startOf endOf evs d2.
Proof.
  intros Days H1 H2.
  apply dateCellRender_in_In in H1. apply dateCellRender_in_In in H2.
  destruct H1 as (_ & B1). destruct H2 as (_ & B2).
  destruct (Days (ev_date ev) d1 ltac:(lia)) as [S1 E1].
  destruct (Days (ev_date ev) d2 ltac:(lia)) as [S2 E2].
  assert (S : startOf d1 = startOf d2) by congruence.
  assert (E : endOf d1 = endOf d2) by congruence.
  split; [exact S|split; [exact E|]].
  unfold dateCellRender_in. now rewrite S, E.
Qed.

Lemma dateCellRender_one_day_witness :
  startOfDay 0 Sample.ten_am = startOfDay 0 (Sample.ten_am + 5)
  /\ dateCellRender 0 [Sample.ytEvent "a" (Sample.midnight + 1)] Sample.ten_am
     = dateCellRender 0 [Sample.ytEvent "a" (Sample.midnight + 1)] (Sample.ten_am + 5).
Proof.
  destruct (dateCellRender_one_day (startOfDay 0) (endOfDay 0)
              [Sample.ytEvent "a" (Sample.midnight + 1)]
              Sample.ten_am (Sample.ten_am + 5) (Sample.ytEvent "a" (Sample.midnight + 1))
              (local_days_fixed_offset 0) (or_introl eq_refl) (or_introl eq_refl))
    as (S & _ & C).
  split; [exact S|exact C].
Defined.

(** ** The button that adds a destination *)

(** X25. With no type passed, the Ultra button is the one shown exactly
    to users that are neither Prime nor grandfathered, and a click on it
    never opens the settings: it links to the Prime page.  A Prime user
    gets the default button, and the click then opens the Stream
    settings and nothing else.  The analytics subscription is made
    exactly for a user that is not Prime and is in dual output mode. *)
Theorem addDestination_by_button (module : AddDestination.GoLive) :
  (AddDestination.shownType None module = AddDestination.ultra_type
   <-> AddDestination.isPrime module = false
       /\ AddDestination.grandfathered module = false)
  /\ (AddDestination.shownType None module = AddDestination.ultra_type ->
      ~ In (AddDestination.showSettings "Stream") (AddDestination.addDestination module)
      /\ In (AddDestination.linkToPrime "slobs-multistream")
            (AddDestination.addDestination module))
  /\ (AddDestination.isPrime module = true ->
      AddDestination.shownType None module = AddDestination.default_type
      /\ AddDestination.addDestination module = [AddDestination.showSettings "Stream"])
  /\ (In AddDestination.subscribeUltraAnalytics (AddDestination.addDestination module)
      <-> AddDestination.isPrime module = false
          /\ AddDestination.isDualOutputMode module = true).
Proof.
  unfold AddDestination.shownType, AddDestination.btnType, AddDestination.addDestination.
  destruct (AddDestination.isPrime module), (AddDestination.grandfathered module),
    (AddDestination.isDualOutputMode module); simpl;
    intuition (try discriminate; auto).
Qed.
